(** * markupify: the page builder of [markupify/page.py]

    A shallow embedding of the class [HTMLPage] and of the part of Python it
    runs on: values with their truth value and string form, a store of
    element objects addressed by reference (sections are mutated in place and
    their references escape to the caller), fragments (values, the page
    itself, any other object), exceptions, and the file system seen through
    [open]. *)

From Stdlib Require Import ZArith Ascii String List Bool Lia DecimalString.
From stdpp Require Import base list strings gmap.

Open Scope string_scope.

(** ** Strings *)

(** [s.startswith(pat)] *)
Fixpoint starts_with (pat s : string) : bool :=
  match pat, s with
  | EmptyString, _ => true
  | String _ _, EmptyString => false
  | String p pat', String c s' => Ascii.eqb p c && starts_with pat' s'
  end.

(** The number of positions of [s] at which the non-empty text [pat] occurs. *)
Fixpoint occurrences (pat s : string) : nat :=
  match s with
  | EmptyString => 0
  | String _ s' =>
      (match pat with
       | EmptyString => 0
       | String _ _ => if starts_with pat s then 1 else 0
       end) + occurrences pat s'
  end.

(** The character [c] does not occur in [s]. *)
Fixpoint lacks (c : ascii) (s : string) : bool :=
  match s with
  | EmptyString => true
  | String d s' => negb (Ascii.eqb c d) && lacks c s'
  end.

(** ** Python values *)

(** References to element objects: positions in the store. *)
Definition loc := nat.

(** The values whose truth value and string form need the store at most:
    [None], booleans, integers, strings and references to element objects. *)
Inductive PyVal : Type :=
  | PNone
  | PBool (b : bool)
  | PInt (z : Z)
  | PStr (s : string)
  | PObj (l : loc).

Inductive PyExn : Type :=
  | TypeError
  | KeyError (key : string)
  | AttributeError
  | OSError
  | UnicodeEncodeError
  | SystemError
  | FormatterError
  | OtherError (name : string).

Inductive Result (A : Type) : Type :=
  | Ok (a : A)
  | Raise (e : PyExn).
Arguments Ok {A} a.
Arguments Raise {A} e.

(** ** Elements ([markupify/tags.py]) *)

Inductive ElemClass : Type :=
  | ClsElement (tag : string)
  | ClsHtml
  | ClsHead
  | ClsBody
  | ClsDocType.

(** Modelled from the spec: the classes [Element], [Html], [Head], [Body] and
    [DocType] of [markupify/tags.py], which [page.py] imports.  An element has
    a tag name (fixed by its class), an inner content and an attribute map in
    insertion order; [page.py] always hands the content over as a string. *)
Record Element : Type := mkElement {
  cls : ElemClass;
  tag_content : string;
  props : list (string * string)
}.

Definition tag_name (c : ElemClass) : string :=
  match c with
  | ClsElement t => t
  | ClsHtml => "html"
  | ClsHead => "head"
  | ClsBody => "body"
  | ClsDocType => "!DOCTYPE"
  end.

(** Modelled from the spec: the document type declaration token. *)
Definition doctype_token : string := "<!DOCTYPE html>".

(** The double quote character, as a one-character string. *)
Definition dq : string := String "034"%char EmptyString.

(** Modelled from the spec: one attribute of an open tag, a space, the key,
    the equals sign and the value between double quotes. *)
Definition render_prop (kv : string * string) : string :=
  " " +:+ fst kv +:+ "=" +:+ dq +:+ snd kv +:+ dq.

Fixpoint render_props (ps : list (string * string)) : string :=
  match ps with
  | [] => EmptyString
  | kv :: rest => render_prop kv +:+ render_props rest
  end.

(** Modelled from the spec: the string form of an element, open tag with its
    attributes, content, close tag; the document type declaration is the
    constant token. *)
Definition Element_str (e : Element) : string :=
  match cls e with
  | ClsDocType => doctype_token
  | c => "<" +:+ tag_name c +:+ render_props (props e) +:+ ">"
         +:+ tag_content e +:+ "</" +:+ tag_name c +:+ ">"
  end.

(** Modelled from the spec: the constructors [Head(tag_content, **props)],
    [Body(...)], [Html(...)] and [DocType()]; without arguments a section is
    empty, [<head></head>]. *)
Definition Head (content : string) (ps : list (string * string)) : Element :=
  mkElement ClsHead content ps.
Definition Body (content : string) (ps : list (string * string)) : Element :=
  mkElement ClsBody content ps.
Definition Html (content : string) (ps : list (string * string)) : Element :=
  mkElement ClsHtml content ps.
Definition DocType : Element := mkElement ClsDocType EmptyString [].

(** ** Truth value and string form *)

(** [bool(v)]: objects without [__bool__] or [__len__] are true. *)
Definition py_bool (v : PyVal) : bool :=
  match v with
  | PNone => false
  | PBool b => b
  | PInt z => negb (z =? 0)%Z
  | PStr s => negb (s =? EmptyString)
  | PObj _ => true
  end.

(** [str(v)], read in the store [σ].  A reference always denotes a live
    object in Python; outside the store the empty string stands in. *)
Definition py_str (σ : list Element) (v : PyVal) : string :=
  match v with
  | PNone => "None"
  | PBool true => "True"
  | PBool false => "False"
  | PInt z => NilZero.string_of_int (Z.to_int z)
  | PStr s => s
  | PObj l => match σ !! l with Some e => Element_str e | None => EmptyString end
  end.

(** ** The page object, the file system and the machine state *)

(** The template ["{doc_type}{html}"] in parsed form. *)
Inductive Piece : Type :=
  | Lit (s : string)
  | Field (name : string).

Record HTMLPage : Type := mkPage {
  lang : string;
  template : list Piece;
  head : option loc;
  body : option loc
}.

(** How [f.write(text)] ends: the whole text is stored, or the call raises
    with only [kept] having reached the file (nothing of it when the text
    cannot be encoded). *)
Inductive WriteOutcome : Type :=
  | Stored
  | Failed (x : PyExn) (kept : string).

(** What [open(path, "w")] sees: the files by the name of the file itself,
    the handles currently open, and the environment's answers, each given the
    files as they are at that moment: which file a path names, whether
    opening a path for writing raises, and how writing a text to a file ends. *)
Record FileSystem : Type := mkFS {
  files : gmap string string;
  handles : list string;
  resolve : string -> string;
  open_error : gmap string string -> string -> option PyExn;
  write_outcome : gmap string string -> string -> string -> WriteOutcome
}.

Record State : Type := mkState {
  heap : list Element;
  self : HTMLPage;
  fs : FileSystem
}.

(** ** Fragments *)

(** What a caller hands to [set_head], [set_body], [add_tag_to_head] and
    [add_tag_to_body]: a value as above, the page object itself (its [__str__]
    is [render]), or any other object, given by what its [str] conversion
    does in each state of the page, the store and the files: it returns a
    string or raises.  Conversions have no effect on the state. *)
Inductive Fragment : Type :=
  | FVal (v : PyVal)
  | FPage
  | FOther (conversion : State -> Result string).

Definition with_heap (σ : list Element) (s : State) : State :=
  mkState σ (self s) (fs s).
Definition with_self (p : HTMLPage) (s : State) : State :=
  mkState (heap s) p (fs s).
Definition with_fs (w : FileSystem) (s : State) : State :=
  mkState (heap s) (self s) w.

(** ** State and exception monad *)

Definition M (A : Type) : Type := State -> Result A * State.

Definition ret {A} (a : A) : M A := fun s => (Ok a, s).
Definition raise {A} (e : PyExn) : M A := fun s => (Raise e, s).
Definition bind {A B} (m : M A) (k : A -> M B) : M B :=
  fun s => match m s with
           | (Ok a, s') => k a s'
           | (Raise e, s') => (Raise e, s')
           end.

Notation "x <- c ;; k" := (bind c (fun x => k))
  (at level 100, c at next level, right associativity).
Notation "c ;;; k" := (bind c (fun _ => k))
  (at level 100, right associativity).

Definition get_heap : M (list Element) := fun s => (Ok (heap s), s).
Definition get_self : M HTMLPage := fun s => (Ok (self s), s).

(** [obj.attr] on an attribute that may not be set yet. *)
Definition get_attr (sec : HTMLPage -> option loc) : M loc :=
  fun s => match sec (self s) with
           | Some l => (Ok l, s)
           | None => (Raise AttributeError, s)
           end.

Definition deref (l : loc) : M Element :=
  fun s => match heap s !! l with
           | Some e => (Ok e, s)
           | None => (Raise SystemError, s)
           end.

(** A new object gets the next free reference. *)
Definition alloc (e : Element) : M loc :=
  fun s => (Ok (length (heap s)), with_heap (heap s ++ [e]) s).

Definition store (l : loc) (e : Element) : M unit :=
  fun s => (Ok tt, with_heap (<[l := e]> (heap s)) s).

Definition set_self_head (l : loc) : M unit :=
  fun s => (Ok tt, with_self (mkPage (lang (self s)) (template (self s))
                                     (Some l) (body (self s))) s).
Definition set_self_body (l : loc) : M unit :=
  fun s => (Ok tt, with_self (mkPage (lang (self s)) (template (self s))
                                     (head (self s)) (Some l)) s).

Definition lift {A} (r : Result A) : M A := fun s => (r, s).

(** ** Keyword arguments *)

Definition has_key (k : string) (ps : list (string * string)) : bool :=
  existsb (String.eqb k) (map fst ps).

(** A call [f(name=..., **props)] or a method [def f(self, ..., **props)]
    raises [TypeError] when [props] repeats a name that is already bound. *)
Definition check_kwargs (bound : list string) (ps : list (string * string)) : M unit :=
  if existsb (fun k => has_key k ps) bound then raise TypeError else ret tt.

(** ** [HTMLPage]: rendering *)

Definition default_template : list Piece := [Field "doc_type"; Field "html"].

(** [template.format] with keyword arguments [kw], on a parsed template. *)
Fixpoint format (t : list Piece) (kw : list (string * string)) : Result string :=
  match t with
  | [] => Ok EmptyString
  | Lit s :: rest =>
      match format rest kw with
      | Ok r => Ok (s +:+ r)
      | Raise e => Raise e
      end
  | Field name :: rest =>
      match List.find (fun kv => String.eqb name (fst kv)) kw with
      | None => Raise (KeyError name)
      | Some kv =>
          match format rest kw with
          | Ok r => Ok (snd kv +:+ r)
          | Raise e => Raise e
          end
      end
  end.

(** The property [doc_type]. *)
Definition doc_type : M Element := ret DocType.

(** The property [html]: [Html(tag_content=f"{self.head}{self.body}", lang=self.lang)]. *)
Definition html : M Element :=
  h <- get_attr head ;;
  he <- deref h ;;
  b <- get_attr body ;;
  be <- deref b ;;
  p <- get_self ;;
  ret (Html (Element_str he +:+ Element_str be) [("lang", lang p)]).

Definition render : M string :=
  p <- get_self ;;
  d <- doc_type ;;
  h <- html ;;
  lift (format (template p) [("doc_type", Element_str d); ("html", Element_str h)]).

(** [__str__] and [__repr__] *)
Definition HTMLPage_str : M string := render.
Definition HTMLPage_repr : M string := render.

(** ** [HTMLPage]: replacing and appending *)

(** [str(tag)] for a fragment, in the state [s]: the page's own string form
    is what [render] returns at that moment. *)
Definition frag_str (s : State) (tag : Fragment) : Result string :=
  match tag with
  | FVal v => Ok (py_str (heap s) v)
  | FPage => fst (HTMLPage_str s)
  | FOther conversion => conversion s
  end.

Definition str_ (tag : Fragment) : M string :=
  fun s => (frag_str s tag, s).

(** The loop of [set_head] and [set_body]: [for tag in args: content += str(tag)],
    from the content accumulated so far. *)
Fixpoint concat_loop (content : string) (args : list Fragment) : M string :=
  match args with
  | [] => ret content
  | tag :: rest => t <- str_ tag ;; concat_loop (content +:+ t) rest
  end.

(** [Cls(tag_content=content, **props)]: the keyword [tag_content] is already
    bound at the call, then the new object is created. *)
Definition construct (Cls : string -> list (string * string) -> Element)
    (content : string) (ps : list (string * string)) : M loc :=
  check_kwargs ["tag_content"] ps ;;;
  alloc (Cls content ps).

Definition set_head (args : list Fragment) (ps : list (string * string)) : M loc :=
  check_kwargs ["self"] ps ;;;
  content <- concat_loop EmptyString args ;;
  h <- construct Head content ps ;;
  set_self_head h ;;;
  get_attr head.

Definition set_body (args : list Fragment) (ps : list (string * string)) : M loc :=
  check_kwargs ["self"] ps ;;;
  content <- concat_loop EmptyString args ;;
  b <- construct Body content ps ;;
  set_self_body b ;;;
  get_attr body.

(** [self.<sec>.tag_content += str(tag)] *)
Definition append_content (sec : HTMLPage -> option loc) (tag : Fragment) : M unit :=
  l <- get_attr sec ;;
  e <- deref l ;;
  t <- str_ tag ;;
  store l (mkElement (cls e) (tag_content e +:+ t) (props e)).

Fixpoint for_each {A} (f : A -> M unit) (xs : list A) : M unit :=
  match xs with
  | [] => ret tt
  | x :: rest => f x ;;; for_each f rest
  end.

Definition add_tag_to_head (args : list Fragment) : M loc :=
  for_each (append_content head) args ;;;
  get_attr head.

Definition add_tag_to_body (args : list Fragment) : M loc :=
  for_each (append_content body) args ;;;
  get_attr body.

(** ** [HTMLPage]: construction *)

(** The object before the two section assignments of [__init__]. *)
Definition blank_page (lang : string) : HTMLPage :=
  mkPage lang default_template None None.

(** The section assignments of [__init__]:
    [self.head = self.set_head(head) if not bool(head) else Head()]. *)
Definition init_sections (head_arg body_arg : PyVal) : M unit :=
  h <- (if negb (py_bool head_arg) then set_head [FVal head_arg] []
        else alloc (Head EmptyString [])) ;;
  set_self_head h ;;;
  b <- (if negb (py_bool body_arg) then set_body [FVal body_arg] []
        else alloc (Body EmptyString [])) ;;
  set_self_body b.

(** [HTMLPage(head, body, lang="en")] in the store [σ] and file system [w]. *)
Definition HTMLPage_new (head_arg body_arg : PyVal) (lang_arg : option string)
    (σ : list Element) (w : FileSystem) : Result unit * State :=
  init_sections head_arg body_arg
    (mkState σ (blank_page (default "en" lang_arg)) w).

(** ** Files: [open], [write] and the [with] statement *)

Definition set_files (fl : gmap string string) (hs : list string) (w : FileSystem) : FileSystem :=
  mkFS fl hs (resolve w) (open_error w) (write_outcome w).

(** [open(path, "w")]: raises what the environment says, leaving everything
    as it is; else the file the path names is created or emptied and a handle
    on it is held. *)
Definition fs_open (path : string) : M string :=
  fun s =>
    let w := fs s in
    match open_error w (files w) path with
    | Some x => (Raise x, s)
    | None =>
        let f := resolve w path in
        (Ok f, with_fs (set_files (<[f := EmptyString]> (files w)) (f :: handles w) w) s)
    end.

(** [f.write(text)]: the text, or the part of it that got through before the
    failure, goes behind what the file holds. *)
Definition fs_write (f : string) (text : string) : M unit :=
  fun s =>
    let w := fs s in
    let held := default EmptyString (files w !! f) in
    match write_outcome w (files w) f text with
    | Stored =>
        (Ok tt, with_fs (set_files (<[f := held +:+ text]> (files w)) (handles w) w) s)
    | Failed x kept =>
        (Raise x, with_fs (set_files (<[f := held +:+ kept]> (files w)) (handles w) w) s)
    end.

Fixpoint release (f : string) (hs : list string) : list string :=
  match hs with
  | [] => []
  | h :: rest => if String.eqb f h then rest else h :: release f rest
  end.

Definition fs_close (f : string) (s : State) : State :=
  with_fs (set_files (files (fs s)) (release f (handles (fs s))) (fs s)) s.

(** [with open(path, "w") as f: body]: the handle is closed when the body
    ends, normally or by an exception, and the exception goes on. *)
Definition with_open {A} (path : string) (body : string -> M A) : M A :=
  fun s =>
    match fs_open path s with
    | (Ok f, s1) => let (r, s2) := body f s1 in (r, fs_close f s2)
    | (Raise e, s1) => (Raise e, s1)
    end.

Section Prettifier.

(** The pretty-printer of [bs4]:
    [BeautifulSoup(markup, "html.parser").prettify(encoding, formatter)]. *)
Variable soup_prettify : PyVal -> option string -> string -> Result string.

(** [if not html_content: html_content = self.render()] *)
Definition pretty_markup (html_content : PyVal) : M PyVal :=
  if negb (py_bool html_content)
  then r <- render ;; ret (PStr r)
  else ret html_content.

(** [pretty(html_content="", encoding=None, formatter="minimal")]; an
    argument left out is [None] here and takes its default. *)
Definition pretty (html_content : option PyVal) (encoding : option string)
    (formatter : option string) : M string :=
  markup <- pretty_markup (default (PStr EmptyString) html_content) ;;
  lift (soup_prettify markup encoding (default "minimal" formatter)).

Definition write (filename : string) : M unit :=
  with_open filename (fun f =>
    text <- pretty None None None ;;
    fs_write f text).

(** ** Operations on a page, as a caller issues them *)

Inductive Op : Type :=
  | OpSetHead (args : list Fragment) (ps : list (string * string))
  | OpSetBody (args : list Fragment) (ps : list (string * string))
  | OpAddHead (args : list Fragment)
  | OpAddBody (args : list Fragment)
  | OpRender
  | OpPretty (html_content : option PyVal) (encoding formatter : option string)
  | OpWrite (filename : string).

Definition discard {A} (m : M A) : M unit := m ;;; ret tt.

Definition step (op : Op) : M unit :=
  match op with
  | OpSetHead args ps => discard (set_head args ps)
  | OpSetBody args ps => discard (set_body args ps)
  | OpAddHead args => discard (add_tag_to_head args)
  | OpAddBody args => discard (add_tag_to_body args)
  | OpRender => discard render
  | OpPretty c e f => discard (pretty c e f)
  | OpWrite filename => write filename
  end.

(** The state after an operation, whether it returned or raised. *)
Definition exec (s : State) (op : Op) : State := snd (step op s).

Definition exec_all (ops : list Op) (s : State) : State := fold_left exec ops s.

End Prettifier.

(** ** Well-formed pages *)

(** The attribute value [o] is set and refers to a live object of class [C]. *)
Definition live (C : ElemClass) (σ : list Element) (o : option loc) : Prop :=
  exists l e, o = Some l /\ σ !! l = Some e /\ cls e = C.

(** The page owns a [Head] object and a [Body] object: both attributes are
    set and refer to live objects of the right class. *)
Definition owns_sections (s : State) : Prop :=
  live ClsHead (heap s) (head (self s)) /\ live ClsBody (heap s) (body (self s)).

(** A page as [__init__] leaves it and the methods keep it. *)
Definition page_ok (s : State) : Prop :=
  template (self s) = default_template /\ owns_sections s.

(** ** Sample environment *)

(** Every path names itself, paths under [/nonexistent-dir/] do not open,
    every write goes through. *)
Definition fs0 : FileSystem :=
  mkFS ∅ [] (fun p => p)
       (fun _ p => if starts_with "/nonexistent-dir/" p then Some OSError else None)
       (fun _ _ _ => Stored).

(** A formatter that hands strings back as they are. *)
Definition plain_prettify (markup : PyVal) (encoding : option string) (formatter : string)
    : Result string :=
  match markup with
  | PStr s => Ok s
  | _ => Raise TypeError
  end.

(** A formatter that always fails. *)
Definition failing_prettify (markup : PyVal) (encoding : option string) (formatter : string)
    : Result string :=
  Raise FormatterError.

(** The string form of the page's sections, as [render] reads them. *)
Definition section_str (sec : HTMLPage -> option loc) (s : State) : string :=
  match sec (self s) with
  | Some l => py_str (heap s) (PObj l)
  | None => EmptyString
  end.

Definition section_content (sec : HTMLPage -> option loc) (s : State) : string :=
  match sec (self s) with
  | Some l => match heap s !! l with Some e => tag_content e | None => EmptyString end
  | None => EmptyString
  end.

(** The concatenation of a list of strings. *)
Fixpoint join (ss : list string) : string :=
  match ss with
  | [] => EmptyString
  | x :: rest => x +:+ join rest
  end.

(** The string forms of the fragments [args], all read in the state [s]; the
    first conversion that raises decides. *)
Fixpoint all_str (s : State) (args : list Fragment) : Result (list string) :=
  match args with
  | [] => Ok []
  | tag :: rest =>
      match frag_str s tag with
      | Raise x => Raise x
      | Ok t =>
          match all_str s rest with
          | Raise x => Raise x
          | Ok ts => Ok (t :: ts)
          end
      end
  end.

(** [a] is a prefix of [b]; strictly so when something follows it. *)
Definition is_prefix (a b : string) : Prop := exists t, b = a +:+ t.
Definition is_strict_prefix (a b : string) : Prop := exists c t, b = a +:+ String c t.

(** The attribute text [lang=...] with the code [L] between double quotes. *)
Definition lang_attr (L : string) : string := "lang=" +:+ dq +:+ L +:+ dq.

(** [HTMLPage] takes any string as its language.  A valid language code is
    taken to be a non-empty string of letters, digits and hyphens. *)
Definition lang_char (c : ascii) : bool :=
  let n := nat_of_ascii c in
  (((48 <=? n) && (n <=? 57)) || ((65 <=? n) && (n <=? 90)) ||
   ((97 <=? n) && (n <=? 122)) || (n =? 45))%nat.

Fixpoint all_chars (f : ascii -> bool) (s : string) : bool :=
  match s with
  | EmptyString => true
  | String c s' => f c && all_chars f s'
  end.

Definition valid_lang (L : string) : bool :=
  negb (L =? EmptyString) && all_chars lang_char L.

(** An attribute map that repeats a name already bound in the call:
    [self] of the method, [tag_content] of the constructor call. *)
Definition clashes (ps : list (string * string)) : bool :=
  has_key "self" ps || has_key "tag_content" ps.

(** The state once a new object [e] is the page's head (body). *)
Definition install_head (e : Element) (s : State) : State :=
  mkState (heap s ++ [e])
          (mkPage (lang (self s)) (template (self s)) (Some (length (heap s))) (body (self s)))
          (fs s).
Definition install_body (e : Element) (s : State) : State :=
  mkState (heap s ++ [e])
          (mkPage (lang (self s)) (template (self s)) (head (self s)) (Some (length (heap s))))
          (fs s).

(** The object at [l] with [text] added to its content. *)
Definition extend (l : loc) (text : string) (σ : list Element) : list Element :=
  match σ !! l with
  | Some e => <[l := mkElement (cls e) (tag_content e +:+ text) (props e)]> σ
  | None => σ
  end.

(** What appending the fragments [args] to the object at [l] adds, and how the
    loop ends: the string form of each fragment, in call order, each read in
    the state as it stands when its turn comes; a conversion that raises ends
    the loop with what was added before it. *)
Fixpoint appended_forms (s : State) (l : loc) (args : list Fragment)
    : string * option PyExn :=
  match args with
  | [] => (EmptyString, None)
  | tag :: rest =>
      match frag_str s tag with
      | Raise x => (EmptyString, Some x)
      | Ok t =>
          let r := appended_forms (with_heap (extend l t (heap s)) s) l rest in
          (t +:+ fst r, snd r)
      end
  end.

(** The result of a loop that ended with [r]: the value [a], or the exception. *)
Definition outcome {A} (r : option PyExn) (a : A) : Result A :=
  match r with
  | None => Ok a
  | Some x => Raise x
  end.

(** The fragment is neither the object at [l] nor the page, and if it is
    another object its conversion does not read the content of the object at
    [l]: nothing the loop over the object at [l] does changes its string form. *)
Definition apart_from (l : loc) (tag : Fragment) : Prop :=
  match tag with
  | FVal v => v <> PObj l
  | FPage => False
  | FOther conversion =>
      forall s text, conversion (with_heap (extend l text (heap s)) s) = conversion s
  end.

(** What appending does to the section [sec] of the page [s] when the method
    [op] is called with the fragments [args]: the call returns the section
    object, which is the object the page had and still has (or raises what a
    conversion raised); only the section's content changes, by the appended
    text after the prior content; for fragments apart from the section and
    the page that all convert, the appended text is their string forms at the
    call and the call returns. *)
Definition appends_to (sec : HTMLPage -> option loc) (op : list Fragment -> M loc)
    (s : State) (args : list Fragment) : Prop :=
  exists l e,
    sec (self s) = Some l /\ heap s !! l = Some e /\
    let added := fst (appended_forms s l args) in
    let s' := snd (op args s) in
    op args s =
      (outcome (snd (appended_forms s l args)) l,
       with_heap (<[l := mkElement (cls e) (tag_content e +:+ added) (props e)]> (heap s)) s) /\
    sec (self s') = Some l /\
    section_content sec s' = section_content sec s +:+ added /\
    is_prefix (section_content sec s) (section_content sec s') /\
    (is_strict_prefix (section_content sec s) (section_content sec s') <-> added <> EmptyString) /\
    (forall ts, Forall (apart_from l) args -> all_str s args = Ok ts ->
       added = join ts /\ fst (op args s) = Ok l).



(** The state [write] ends in when the file [f] is left holding [text]; the
    handles are those held before the call. *)
Definition written (f text : string) (s : State) : State :=
  with_fs (set_files (<[f := text]> (files (fs s))) (handles (fs s)) (fs s)) s.

(** A file system with an earlier version of the file on it. *)
Definition old_disk : FileSystem :=
  mkFS {[ "out.html" := "old" ]} [] (fun p => p) (fun _ _ => None) (fun _ _ _ => Stored).

(** Sample pages. *)
Definition page0 : State := snd (HTMLPage_new PNone (PStr "x") (Some "fr") [] fs0).

Definition page_en : State :=
  snd (add_tag_to_body [FVal (PStr ("<p lang=" +:+ dq +:+ "en" +:+ dq +:+ ">hi</p>"))]
         (snd (HTMLPage_new (PStr EmptyString) (PStr EmptyString) None [] fs0))).

Definition page_blank : State :=
  snd (HTMLPage_new (PStr EmptyString) (PStr EmptyString) None [] fs0).

(** * Properties *)

(** ** Strings *)

Lemma append_cons (x : ascii) (a b : string) : String x a +:+ b = String x (a +:+ b).
Proof. reflexivity. Qed.

Lemma append_nil_l (a : string) : EmptyString +:+ a = a.
Proof. reflexivity. Qed.

Lemma append_assoc (a b c : string) : (a +:+ b) +:+ c = a +:+ (b +:+ c).
Proof.
  induction a as [|x a IH]; [reflexivity |].
  now rewrite !append_cons, IH.
Qed.

Lemma append_nil_r (a : string) : a +:+ EmptyString = a.
Proof.
  induction a as [|x a IH]; [reflexivity |].
  now rewrite append_cons, IH.
Qed.

Lemma starts_with_append (a b : string) : starts_with a (a +:+ b) = true.
Proof.
  induction a as [|x a IH]; [reflexivity |].
  rewrite append_cons. simpl. now rewrite Ascii.eqb_refl, IH.
Qed.

Lemma concat_loop_run (args : list Fragment) :
  forall (content : string) (s : State),
    concat_loop content args s =
    (match all_str s args with
     | Ok ts => Ok (content +:+ join ts)
     | Raise x => Raise x
     end, s).
Proof.
  induction args as [|tag rest IH]; intros content s.
  - cbn [concat_loop all_str join]. unfold ret. now rewrite append_nil_r.
  - cbn [concat_loop all_str]. unfold bind, str_.
    destruct (frag_str s tag) as [t|x]; [|reflexivity].
    rewrite IH. destruct (all_str s rest) as [ts|x]; [|reflexivity].
    cbn [join]. now rewrite append_assoc.
Qed.

Lemma check_kwargs_one (k : string) (ps : list (string * string)) (s : State) :
  check_kwargs [k] ps s = if has_key k ps then (Raise TypeError, s) else (Ok tt, s).
Proof.
  unfold check_kwargs. cbn [existsb]. rewrite orb_false_r.
  now destruct (has_key k ps).
Qed.

Lemma set_head_run (args : list Fragment) (ps : list (string * string)) (s : State) :
  set_head args ps s =
  if has_key "self" ps then (Raise TypeError, s)
  else match all_str s args with
       | Raise x => (Raise x, s)
       | Ok ts =>
           if has_key "tag_content" ps then (Raise TypeError, s)
           else (Ok (length (heap s)), install_head (Head (join ts) ps) s)
       end.
Proof.
  unfold set_head, construct, bind. rewrite check_kwargs_one.
  destruct (has_key "self" ps); [reflexivity |].
  rewrite concat_loop_run. destruct (all_str s args) as [ts|x]; [|reflexivity].
  rewrite check_kwargs_one. destruct (has_key "tag_content" ps); reflexivity.
Qed.

Lemma set_body_run (args : list Fragment) (ps : list (string * string)) (s : State) :
  set_body args ps s =
  if has_key "self" ps then (Raise TypeError, s)
  else match all_str s args with
       | Raise x => (Raise x, s)
       | Ok ts =>
           if has_key "tag_content" ps then (Raise TypeError, s)
           else (Ok (length (heap s)), install_body (Body (join ts) ps) s)
       end.
Proof.
  unfold set_body, construct, bind. rewrite check_kwargs_one.
  destruct (has_key "self" ps); [reflexivity |].
  rewrite concat_loop_run. destruct (all_str s args) as [ts|x]; [|reflexivity].
  rewrite check_kwargs_one. destruct (has_key "tag_content" ps); reflexivity.
Qed.

(** ** Construction *)

Lemma falsy_str_store (v : PyVal) (σ σ' : list Element) :
  py_bool v = false -> py_str σ v = py_str σ' v.
Proof. destruct v; simpl; intros H; try reflexivity; discriminate. Qed.

Lemma HTMLPage_new_spec (head_arg body_arg : PyVal) (lang_arg : option string)
    (σ : list Element) (w : FileSystem) :
  HTMLPage_new head_arg body_arg lang_arg σ w =
  (Ok tt,
   mkState
     (σ ++ [if py_bool head_arg then Head EmptyString [] else Head (py_str σ head_arg) [];
            if py_bool body_arg then Body EmptyString [] else Body (py_str σ body_arg) []])%list
     (mkPage (default "en" lang_arg) default_template
             (Some (length σ)) (Some (S (length σ))))
     w).
Proof.
  unfold HTMLPage_new, init_sections, bind.
  destruct (py_bool head_arg) eqn:Hh, (py_bool body_arg) eqn:Hb;
    repeat first
      [ rewrite set_head_run | rewrite set_body_run
      | progress cbv beta iota delta
          [alloc set_self_head set_self_body with_heap with_self install_head
           install_body heap self fs lang template head body blank_page has_key
           existsb map fst all_str frag_str join negb get_attr] ];
    rewrite ?append_nil_r, ?length_app; cbn [length];
    rewrite <- ?app_assoc, ?Nat.add_1_r; cbn [app];
    rewrite ?(falsy_str_store body_arg (σ ++ _)%list σ Hb); reflexivity.
Qed.

(** C1. The constructor honours an initial head or body only when it is
    falsy (its string form becomes the section's content); a truthy one is
    dropped and an empty [Head] or [Body] takes its place. *)
Theorem init_honours_only_falsy (head_arg body_arg : PyVal) (lang_arg : option string)
    (σ : list Element) (w : FileSystem) :
  let r := HTMLPage_new head_arg body_arg lang_arg σ w in
  fst r = Ok tt /\
  heap (snd r) =
    (σ ++ [if py_bool head_arg then Head EmptyString [] else Head (py_str σ head_arg) [];
           if py_bool body_arg then Body EmptyString [] else Body (py_str σ body_arg) []])%list /\
  head (self (snd r)) = Some (length σ) /\
  body (self (snd r)) = Some (S (length σ)) /\
  lang (self (snd r)) = default "en" lang_arg.
Proof.
  cbv zeta. rewrite HTMLPage_new_spec. repeat split.
Qed.


Lemma falsy_section (v other : PyVal) (lang_arg : option string)
    (σ : list Element) (w : FileSystem) :
  py_bool v = false ->
  (let s := snd (HTMLPage_new v other lang_arg σ w) in
   section_content head s = py_str σ v /\
   section_str head s = "<head>" +:+ py_str σ v +:+ "</head>") /\
  (let s := snd (HTMLPage_new other v lang_arg σ w) in
   section_content body s = py_str σ v /\
   section_str body s = "<body>" +:+ py_str σ v +:+ "</body>").
Proof.
  intros Hv. split; cbv zeta.
  - rewrite HTMLPage_new_spec, Hv.
    unfold section_content, section_str. cbn [snd self heap head py_str].
    rewrite lookup_app_r by lia. rewrite Nat.sub_diag. simpl. split; reflexivity.
  - rewrite HTMLPage_new_spec, Hv.
    unfold section_content, section_str. cbn [snd self heap body py_str].
    rewrite lookup_app_r by lia.
    replace (S (length σ) - length σ) with 1 by lia.
    simpl. split; reflexivity.
Qed.

(** C10 (amended). Built with a falsy head (or body), the page gets a section
    whose content is the string form of that value, since the value goes
    through [set_head] ([set_body]) and [str]: with [None] the content is the
    four characters [None], not an empty one; the content is empty only when
    that string form is, as for the empty string. *)
Theorem init_falsy_content (v other : PyVal) (lang_arg : option string)
    (σ : list Element) (w : FileSystem) :
  py_bool v = false ->
  (let s := snd (HTMLPage_new v other lang_arg σ w) in
   section_content head s = py_str σ v /\
   section_str head s = "<head>" +:+ py_str σ v +:+ "</head>" /\
   (section_content head s = EmptyString <-> py_str σ v = EmptyString)) /\
  (let s := snd (HTMLPage_new other v lang_arg σ w) in
   section_content body s = py_str σ v /\
   section_str body s = "<body>" +:+ py_str σ v +:+ "</body>" /\
   (section_content body s = EmptyString <-> py_str σ v = EmptyString)) /\
  (let s := snd (HTMLPage_new PNone other lang_arg σ w) in
   section_content head s = "None" /\ section_str head s = "<head>None</head>") /\
  (let s := snd (HTMLPage_new other PNone lang_arg σ w) in
   section_content body s = "None" /\ section_str body s = "<body>None</body>").
Proof.
  intros Hv.
  destruct (falsy_section v other lang_arg σ w Hv) as [[Hh1 Hh2] [Hb1 Hb2]].
  destruct (falsy_section PNone other lang_arg σ w eq_refl) as [[Hn1 Hn2] [Hn3 Hn4]].
  cbv zeta in *. repeat split; try assumption.
  - now rewrite Hh1.
  - now rewrite Hh1.
  - now rewrite Hb1.
  - now rewrite Hb1.
Qed.

Lemma init_falsy_content_witness :
  py_bool (PInt 0) = false /\
  section_str head (snd (HTMLPage_new (PInt 0) PNone None [] fs0)) = "<head>0</head>".
Proof.
  split; [reflexivity |].
  destruct (init_falsy_content (PInt 0) PNone None [] fs0 eq_refl) as [(_ & H & _) _].
  exact H.
Defined.

(** C10, as stated, fails: the empty string is falsy too, and the head built
    from it does have empty content. *)
Lemma init_empty_string_content :
  py_bool (PStr EmptyString) = false /\
  section_content head (snd (HTMLPage_new (PStr EmptyString) PNone None [] fs0)) = EmptyString /\
  section_str head (snd (HTMLPage_new (PStr EmptyString) PNone None [] fs0)) = "<head></head>".
Proof. repeat split. Qed.

(** ** Rendering *)

Lemma format_default (d h : string) :
  format default_template [("doc_type", d); ("html", h)] = Ok (d +:+ h).
Proof. simpl. now rewrite append_nil_r. Qed.

Lemma render_ok (s : State) :
  page_ok s ->
  render s =
    (Ok (doctype_token +:+
         Element_str (Html (section_str head s +:+ section_str body s)
                           [("lang", lang (self s))])), s).
Proof.
  intros [Ht [(lh & eh & Hh & Hlh & _) (lb & eb & Hb & Hlb & _)]].
  unfold render, html, doc_type, get_self, get_attr, deref, bind, ret, lift, section_str.
  rewrite Hh. cbn [py_str]. rewrite Hlh. cbv beta iota.
  rewrite Hb. cbv beta iota. rewrite Hlb. cbv beta iota. rewrite Ht.
  now rewrite format_default.
Qed.

Lemma render_pure (s : State) : snd (render s) = s.
Proof.
  unfold render, html, doc_type, get_self, get_attr, deref, bind, ret, lift.
  destruct (head (self s)) as [lh|]; [|reflexivity].
  destruct (heap s !! lh) as [eh|]; [|reflexivity].
  destruct (body (self s)) as [lb|]; [|reflexivity].
  destruct (heap s !! lb) as [eb|]; reflexivity.
Qed.

Lemma Html_str (content L : string) :
  Element_str (Html content [("lang", L)]) =
  "<html " +:+ lang_attr L +:+ ">" +:+ content +:+ "</html>".
Proof.
  unfold Element_str, Html, lang_attr.
  cbn [cls props tag_content tag_name render_props]. unfold render_prop.
  cbn [fst snd]. rewrite append_nil_r, !append_assoc. reflexivity.
Qed.

(** C2. On every page, [render] returns the document: the doctype's string
    form, then the html element whose content is the head's string form
    followed by the body's, carrying the page's language attribute; the
    output starts with the doctype token. *)
Theorem render_document (s : State) :
  page_ok s ->
  exists out,
    render s = (Ok out, s) /\
    out = Element_str DocType +:+
          Element_str (Html (section_str head s +:+ section_str body s)
                            [("lang", lang (self s))]) /\
    out = doctype_token +:+ "<html lang=" +:+ dq +:+ lang (self s) +:+ dq +:+ ">"
          +:+ section_str head s +:+ section_str body s +:+ "</html>" /\
    starts_with doctype_token out = true.
Proof.
  intros Hok. eexists. split; [apply (render_ok s Hok) |].
  split; [reflexivity |]. split.
  - rewrite Html_str. unfold lang_attr. now rewrite !append_assoc.
  - apply starts_with_append.
Qed.

Lemma page0_ok : page_ok page0.
Proof.
  split; [reflexivity |]. split.
  - exists 0, (Head "None" []). repeat split.
  - exists 1, (Body EmptyString []). repeat split.
Qed.

Lemma render_document_witness :
  page_ok page0 /\
  exists out, render page0 = (Ok out, page0) /\
    starts_with doctype_token out = true.
Proof.
  split; [exact page0_ok |].
  destruct (render_document page0 page0_ok) as (out & H1 & _ & _ & H4).
  exists out. split; assumption.
Defined.

(** C5. [render] is a function of the page's state with no effect on it:
    the state after a call is the state before, a second call returns the
    same string, and on a well-formed page the call does return. *)
Theorem render_deterministic_pure (s : State) :
  page_ok s ->
  snd (render s) = s /\
  render (snd (render s)) = render s /\
  exists out,
    (r1 <- render ;; r2 <- HTMLPage_str ;; ret (r1, r2)) s = (Ok (out, out), s).
Proof.
  intros Hok. split; [apply render_pure |].
  split; [now rewrite render_pure |].
  eexists. unfold bind, HTMLPage_str. rewrite (render_ok s Hok).
  rewrite (render_ok s Hok). reflexivity.
Qed.

Lemma render_deterministic_pure_witness :
  page_ok page0 /\ snd (render page0) = page0.
Proof.
  split; [exact page0_ok |].
  exact (proj1 (render_deterministic_pure page0 page0_ok)).
Defined.

(** ** Replacing a section *)

Lemma lookup_new (σ : list Element) (e : Element) : (σ ++ [e])%list !! length σ = Some e.
Proof. rewrite lookup_app_r by lia. now rewrite Nat.sub_diag. Qed.

Lemma install_head_content (e : Element) (s : State) :
  section_content head (install_head e s) = tag_content e /\
  section_str head (install_head e s) = Element_str e.
Proof.
  unfold section_content, section_str, install_head. cbn [self heap head py_str].
  now rewrite lookup_new.
Qed.

Lemma install_body_content (e : Element) (s : State) :
  section_content body (install_body e s) = tag_content e /\
  section_str body (install_body e s) = Element_str e.
Proof.
  unfold section_content, section_str, install_body. cbn [self heap body py_str].
  now rewrite lookup_new.
Qed.

Lemma Head_str (content : string) (ps : list (string * string)) :
  Element_str (Head content ps) =
  "<head" +:+ render_props ps +:+ ">" +:+ content +:+ "</head>".
Proof. unfold Element_str, Head. cbn [cls props tag_content tag_name]. reflexivity. Qed.

Lemma Body_str (content : string) (ps : list (string * string)) :
  Element_str (Body content ps) =
  "<body" +:+ render_props ps +:+ ">" +:+ content +:+ "</body>".
Proof. unfold Element_str, Body. cbn [cls props tag_content tag_name]. reflexivity. Qed.

Lemma clash_cases (ps : list (string * string)) :
  clashes ps = false -> has_key "self" ps = false /\ has_key "tag_content" ps = false.
Proof. unfold clashes. intros H. now apply orb_false_iff in H. Qed.

Lemma set_head_ok (args : list Fragment) (ps : list (string * string)) (s : State)
    (ts : list string) :
  all_str s args = Ok ts -> clashes ps = false ->
  set_head args ps s = (Ok (length (heap s)), install_head (Head (join ts) ps) s).
Proof.
  intros Hall Hps. destruct (clash_cases ps Hps) as [H1 H2].
  now rewrite set_head_run, H1, Hall, H2.
Qed.

Lemma set_body_ok (args : list Fragment) (ps : list (string * string)) (s : State)
    (ts : list string) :
  all_str s args = Ok ts -> clashes ps = false ->
  set_body args ps s = (Ok (length (heap s)), install_body (Body (join ts) ps) s).
Proof.
  intros Hall Hps. destruct (clash_cases ps Hps) as [H1 H2].
  now rewrite set_body_run, H1, Hall, H2.
Qed.

Lemma set_section_clash (args : list Fragment) (ps : list (string * string)) (s : State)
    (ts : list string) :
  all_str s args = Ok ts -> clashes ps = true ->
  set_head args ps s = (Raise TypeError, s) /\ set_body args ps s = (Raise TypeError, s).
Proof.
  intros Hall Hps. rewrite set_head_run, set_body_run, Hall. unfold clashes in Hps.
  destruct (has_key "self" ps); [now split |].
  cbn [orb] in Hps. now rewrite Hps.
Qed.

(** C3 (amended). For every sequence of fragments (each converting to a
    string) and every attribute map that holds neither the key [self] nor the
    key [tag_content], [set_head] (and likewise [set_body]) joins the string
    forms of the fragments in call order, builds a new [Head] ([Body]) with
    that content and those attributes, stores it as the page's section and
    returns it; whatever the section held before is gone, also right after an
    earlier [set_head].  With one of the two keys in the attribute map the
    call raises [TypeError] and leaves the state as it was. *)
Theorem set_section_replaces (s : State) (args : list Fragment)
    (ps : list (string * string)) (ts : list string) :
  all_str s args = Ok ts ->
  let content := join ts in
  let l := length (heap s) in
  (clashes ps = true ->
   set_head args ps s = (Raise TypeError, s) /\
   set_body args ps s = (Raise TypeError, s)) /\
  (clashes ps = false ->
   (set_head args ps s = (Ok l, install_head (Head content ps) s) /\
    heap s !! l = None /\
    head (self (snd (set_head args ps s))) = Some l /\
    heap (snd (set_head args ps s)) !! l = Some (Head content ps) /\
    section_content head (snd (set_head args ps s)) = content /\
    section_str head (snd (set_head args ps s)) =
      "<head" +:+ render_props ps +:+ ">" +:+ content +:+ "</head>") /\
   (set_body args ps s = (Ok l, install_body (Body content ps) s) /\
    heap s !! l = None /\
    body (self (snd (set_body args ps s))) = Some l /\
    heap (snd (set_body args ps s)) !! l = Some (Body content ps) /\
    section_content body (snd (set_body args ps s)) = content /\
    section_str body (snd (set_body args ps s)) =
      "<body" +:+ render_props ps +:+ ">" +:+ content +:+ "</body>") /\
   (forall a pa ts1,
      let s1 := snd (set_head a pa s) in
      all_str s1 args = Ok ts1 ->
      section_content head (snd (set_head args ps s1)) = join ts1) /\
   (forall a pa ts1,
      let s1 := snd (set_body a pa s) in
      all_str s1 args = Ok ts1 ->
      section_content body (snd (set_body args ps s1)) = join ts1)).
Proof.
  intros Hall content l. split; [exact (set_section_clash args ps s ts Hall) |].
  intros Hps. repeat split.
  - exact (set_head_ok args ps s ts Hall Hps).
  - apply lookup_ge_None. unfold l. lia.
  - now rewrite (set_head_ok args ps s ts Hall Hps).
  - rewrite (set_head_ok args ps s ts Hall Hps). apply lookup_new.
  - rewrite (set_head_ok args ps s ts Hall Hps). apply install_head_content.
  - rewrite (set_head_ok args ps s ts Hall Hps). cbn [snd].
    rewrite (proj2 (install_head_content _ _)). apply Head_str.
  - exact (set_body_ok args ps s ts Hall Hps).
  - apply lookup_ge_None. unfold l. lia.
  - now rewrite (set_body_ok args ps s ts Hall Hps).
  - rewrite (set_body_ok args ps s ts Hall Hps). apply lookup_new.
  - rewrite (set_body_ok args ps s ts Hall Hps). apply install_body_content.
  - rewrite (set_body_ok args ps s ts Hall Hps). cbn [snd].
    rewrite (proj2 (install_body_content _ _)). apply Body_str.
  - intros a pa ts1 s1 H1. rewrite (set_head_ok args ps s1 ts1 H1 Hps).
    apply install_head_content.
  - intros a pa ts1 s1 H1. rewrite (set_body_ok args ps s1 ts1 H1 Hps).
    apply install_body_content.
Qed.

Lemma set_section_replaces_witness :
  all_str (snd (set_head [FVal (PStr "<title>a</title>")] [] page0))
    [FVal (PStr "<title>b</title>")] = Ok ["<title>b</title>"] /\
  clashes [("id", "top")] = false /\
  section_str head
    (snd (set_head [FVal (PStr "<title>b</title>")] [("id", "top")]
            (snd (set_head [FVal (PStr "<title>a</title>")] [] page0)))) =
  "<head id=" +:+ dq +:+ "top" +:+ dq +:+ "><title>b</title></head>".
Proof.
  split; [reflexivity |]. split; [reflexivity |].
  pose proof (set_section_replaces (snd (set_head [FVal (PStr "<title>a</title>")] [] page0))
                [FVal (PStr "<title>b</title>")] [("id", "top")] ["<title>b</title>"]
                eq_refl) as H.
  cbv zeta in H. destruct H as [_ H].
  destruct (H eq_refl) as [(_ & _ & _ & _ & _ & H1) _].
  rewrite H1. reflexivity.
Defined.

(** C3, as stated, fails: with the key [tag_content] in the attribute map
    the call raises [TypeError]; no [Head] is built, stored or returned. *)
Lemma set_head_tag_content_raises :
  set_head [FVal (PStr "<title>t</title>")] [("tag_content", "x")] page0 =
    (Raise TypeError, page0) /\
  ~ (exists l s', set_head [FVal (PStr "<title>t</title>")] [("tag_content", "x")] page0 =
                  (Ok l, s')).
Proof.
  split; [now rewrite set_head_run |].
  intros (l & s' & H). rewrite set_head_run in H. discriminate H.
Qed.

(** ** Appending to a section *)

Lemma with_heap_same (s : State) : with_heap (heap s) s = s.
Proof. now destruct s. Qed.

Lemma element_eta (e : Element) : mkElement (cls e) (tag_content e) (props e) = e.
Proof. now destruct e. Qed.

Lemma extend_live (σ : list Element) (l : loc) (e : Element) (text : string) :
  σ !! l = Some e ->
  extend l text σ = <[l := mkElement (cls e) (tag_content e +:+ text) (props e)]> σ.
Proof. intros H. unfold extend. now rewrite H. Qed.

Lemma extend_nil (σ : list Element) (l : loc) : extend l EmptyString σ = σ.
Proof.
  unfold extend. destruct (σ !! l) as [e|] eqn:He; [|reflexivity].
  rewrite append_nil_r, element_eta. now apply list_insert_id.
Qed.

Lemma extend_extend (σ : list Element) (l : loc) (a b : string) :
  extend l b (extend l a σ) = extend l (a +:+ b) σ.
Proof.
  unfold extend at 2 3. destruct (σ !! l) as [e|] eqn:He.
  - assert (Hlt : l < length σ) by (eapply lookup_lt_Some; exact He).
    unfold extend. rewrite list_lookup_insert_eq by exact Hlt.
    cbn [cls tag_content props]. now rewrite list_insert_insert_eq, append_assoc.
  - unfold extend. now rewrite He.
Qed.

Lemma lookup_extend_eq (σ : list Element) (l : loc) (e : Element) (text : string) :
  σ !! l = Some e ->
  extend l text σ !! l = Some (mkElement (cls e) (tag_content e +:+ text) (props e)).
Proof.
  intros He. rewrite (extend_live _ _ _ _ He).
  apply list_lookup_insert_eq. eapply lookup_lt_Some; exact He.
Qed.

Lemma lookup_extend_ne (σ : list Element) (l l' : loc) (text : string) :
  l <> l' -> extend l text σ !! l' = σ !! l'.
Proof.
  intros Hne. unfold extend. destruct (σ !! l); [|reflexivity].
  now rewrite list_lookup_insert_ne.
Qed.

Lemma append_content_run (sec : HTMLPage -> option loc) (tag : Fragment) (s : State)
    (l : loc) (e : Element) :
  sec (self s) = Some l -> heap s !! l = Some e ->
  append_content sec tag s =
  match frag_str s tag with
  | Ok t => (Ok tt, with_heap (extend l t (heap s)) s)
  | Raise x => (Raise x, s)
  end.
Proof.
  intros Hl He. unfold append_content, bind, get_attr, deref, str_, store.
  rewrite Hl. cbv beta iota. rewrite He. cbv beta iota.
  destruct (frag_str s tag) as [t|x]; [|reflexivity].
  now rewrite (extend_live _ _ _ _ He).
Qed.

Lemma for_each_append (sec : HTMLPage -> option loc) (args : list Fragment) :
  forall (s : State) (l : loc) (e : Element),
    sec (self s) = Some l -> heap s !! l = Some e ->
    for_each (append_content sec) args s =
    (outcome (snd (appended_forms s l args)) tt,
     with_heap (extend l (fst (appended_forms s l args)) (heap s)) s).
Proof.
  induction args as [|tag rest IH]; intros s l e Hl He.
  - cbn [for_each appended_forms fst snd outcome].
    now rewrite extend_nil, with_heap_same.
  - cbn [for_each appended_forms]. unfold bind at 1.
    rewrite (append_content_run sec tag s l e Hl He).
    destruct (frag_str s tag) as [t|x].
    + set (s1 := with_heap (extend l t (heap s)) s).
      assert (He1 : heap s1 !! l =
                Some (mkElement (cls e) (tag_content e +:+ t) (props e)))
        by (apply lookup_extend_eq; exact He).
      rewrite (IH s1 l _ Hl He1). cbn [fst snd]. unfold s1 at 2 3.
      cbn [heap with_heap]. unfold with_heap. cbn [heap self fs].
      now rewrite extend_extend.
    + cbn [fst snd outcome]. now rewrite extend_nil, with_heap_same.
Qed.

Lemma add_run (sec : HTMLPage -> option loc) (args : list Fragment) (s : State)
    (l : loc) (e : Element) :
  sec (self s) = Some l -> heap s !! l = Some e ->
  (for_each (append_content sec) args ;;; get_attr sec) s =
  (outcome (snd (appended_forms s l args)) l,
   with_heap (extend l (fst (appended_forms s l args)) (heap s)) s).
Proof.
  intros Hl He. unfold bind. rewrite (for_each_append sec args s l e Hl He).
  destruct (snd (appended_forms s l args)) as [x|]; cbn [outcome]; [reflexivity |].
  unfold get_attr. cbn [self with_heap]. now rewrite Hl.
Qed.

Lemma frag_str_extend (s : State) (l : loc) (text : string) (tag : Fragment) :
  apart_from l tag ->
  frag_str (with_heap (extend l text (heap s)) s) tag = frag_str s tag.
Proof.
  intros Hap. destruct tag as [v| |conv]; [| contradiction | exact (Hap s text)].
  cbn [apart_from] in Hap. cbn [frag_str heap with_heap]. f_equal.
  destruct v as [| | | |l']; try reflexivity. cbn [py_str].
  rewrite lookup_extend_ne; [reflexivity | congruence].
Qed.

Lemma all_str_extend (s : State) (l : loc) (text : string) (args : list Fragment) :
  Forall (apart_from l) args ->
  all_str (with_heap (extend l text (heap s)) s) args = all_str s args.
Proof.
  induction 1 as [|tag rest Htag _ IH]; [reflexivity |].
  cbn [all_str]. now rewrite (frag_str_extend s l text tag Htag), IH.
Qed.

Lemma appended_forms_join (s : State) (l : loc) (args : list Fragment) :
  forall ts, Forall (apart_from l) args -> all_str s args = Ok ts ->
             appended_forms s l args = (join ts, None).
Proof.
  revert s. induction args as [|tag rest IH]; intros s ts Hall Hts.
  - cbn [all_str] in Hts. injection Hts as <-. reflexivity.
  - inversion Hall as [|? ? Htag Hrest]; subst.
    cbn [all_str] in Hts. cbn [appended_forms].
    destruct (frag_str s tag) as [t|x]; [|discriminate Hts].
    destruct (all_str s rest) as [ts'|x] eqn:Hrs; [|discriminate Hts].
    injection Hts as <-.
    rewrite (IH (with_heap (extend l t (heap s)) s) ts' Hrest)
      by (now rewrite all_str_extend).
    reflexivity.
Qed.

Lemma strict_prefix_iff (a t : string) :
  is_strict_prefix a (a +:+ t) <-> t <> EmptyString.
Proof.
  split.
  - intros (c & t' & H). apply (inj (String.app a)) in H. now subst t.
  - intros Ht. destruct t as [|c t']; [contradiction |]. now exists c, t'.
Qed.

Lemma appends_to_holds (sec : HTMLPage -> option loc) (s : State) (args : list Fragment)
    (l : loc) (e : Element) :
  sec (self s) = Some l -> heap s !! l = Some e ->
  appends_to sec (fun xs => for_each (append_content sec) xs ;;; get_attr sec) s args.
Proof.
  intros Hl He. exists l, e. split; [exact Hl |]. split; [exact He |]. cbv zeta.
  assert (Hlt : l < length (heap s)) by (eapply lookup_lt_Some; exact He).
  rewrite (add_run sec args s l e Hl He), (extend_live _ _ _ _ He). cbn [snd fst].
  assert (Hc : section_content sec
            (with_heap (<[l := mkElement (cls e)
               (tag_content e +:+ fst (appended_forms s l args)) (props e)]> (heap s)) s) =
          section_content sec s +:+ fst (appended_forms s l args)).
  { unfold section_content. cbn [self heap with_heap]. rewrite Hl, He.
    now rewrite list_lookup_insert_eq by exact Hlt. }
  rewrite Hc. repeat split.
  - exact Hl.
  - now exists (fst (appended_forms s l args)).
  - apply strict_prefix_iff.
  - apply strict_prefix_iff.
  - now rewrite (appended_forms_join s l args ts).
  - now rewrite (appended_forms_join s l args ts).
Qed.

(** C4 (amended). On every page and for every sequence of fragments,
    [add_tag_to_head] (and likewise [add_tag_to_body]) appends: the section's
    prior content is a prefix of its new content, a strict one exactly when
    the appended text is not empty; the string forms of the fragments, each
    read when its turn comes, follow it in call order; the call returns the
    section object it has mutated. *)
Theorem add_tag_appends (s : State) (args : list Fragment) :
  owns_sections s ->
  appends_to head add_tag_to_head s args /\
  appends_to body add_tag_to_body s args.
Proof.
  intros [(lh & eh & Hh & Hlh & _) (lb & eb & Hb & Hlb & _)]. split.
  - exact (appends_to_holds head s args lh eh Hh Hlh).
  - exact (appends_to_holds body s args lb eb Hb Hlb).
Qed.

Lemma add_tag_appends_witness :
  owns_sections page0 /\
  section_content body
    (snd (add_tag_to_body [FVal (PStr "<p>hi</p>"); FVal (PInt 7); FPage] page0)) =
  "<p>hi</p>7" +:+ doctype_token +:+ "<html " +:+ lang_attr "fr" +:+
  "><head>None</head><body><p>hi</p>7</body></html>".
Proof.
  split; [exact (proj2 page0_ok) |].
  destruct (add_tag_appends page0 [FVal (PStr "<p>hi</p>"); FVal (PInt 7); FPage]
              (proj2 page0_ok))
    as [_ (l & e & Hl & _ & _ & _ & H & _)].
  injection Hl as <-. rewrite H. reflexivity.
Defined.

(** C4, as stated, fails: appending the empty string leaves the content as
    it was, so the prior content is not a strict prefix of the new one. *)
Lemma add_tag_empty_not_strict :
  fst (add_tag_to_head [FVal (PStr EmptyString)] page0) = Ok 0 /\
  ~ is_strict_prefix (section_content head page0)
      (section_content head (snd (add_tag_to_head [FVal (PStr EmptyString)] page0))).
Proof.
  split; [reflexivity |].
  intros (c & t & H). vm_compute in H. discriminate H.
Qed.

(** ** The pretty-printer and the file *)

Lemma render_fs (w : FileSystem) (s : State) :
  render (with_fs w s) = (fst (render s), with_fs w s).
Proof.
  destruct s as [σ pg w0].
  unfold render, html, doc_type, get_self, get_attr, deref, bind, ret, lift, with_fs.
  cbn [self heap fs].
  destruct (head pg) as [lh|]; [|reflexivity]. cbv beta iota. cbn [self heap fs].
  destruct (σ !! lh) as [eh|]; [|reflexivity]. cbv beta iota. cbn [self heap fs].
  destruct (body pg) as [lb|]; [|reflexivity]. cbv beta iota. cbn [self heap fs].
  destruct (σ !! lb) as [eb|]; reflexivity.
Qed.

Section PrettifierFacts.

Variable soup_prettify : PyVal -> option string -> string -> Result string.

Lemma pretty_run (c : option PyVal) (e f : option string) (s : State) :
  pretty soup_prettify c e f s =
  (if py_bool (default (PStr EmptyString) c)
   then soup_prettify (default (PStr EmptyString) c) e (default "minimal" f)
   else match fst (render s) with
        | Ok out => soup_prettify (PStr out) e (default "minimal" f)
        | Raise x => Raise x
        end,
   s).
Proof.
  unfold pretty, pretty_markup, bind, lift, ret.
  destruct (py_bool (default (PStr EmptyString) c)); cbn [negb]; [reflexivity |].
  pose proof (render_pure s) as Hp. destruct (render s) as [[out|x] s'].
  - cbn [snd] in Hp. now subst s'.
  - cbn [snd] in Hp. now subst s'.
Qed.

Lemma pretty_fs (w : FileSystem) (c : option PyVal) (e f : option string) (s : State) :
  fst (pretty soup_prettify c e f (with_fs w s)) = fst (pretty soup_prettify c e f s).
Proof. rewrite !pretty_run, render_fs. reflexivity. Qed.

Lemma release_first (p : string) (hs : list string) : release p (p :: hs) = hs.
Proof. cbn [release]. now rewrite String.eqb_refl. Qed.

Lemma write_run (p : string) (s : State) :
  write soup_prettify p s =
  match open_error (fs s) (files (fs s)) p with
  | Some x => (Raise x, s)
  | None =>
      let f := resolve (fs s) p in
      match fst (pretty soup_prettify None None None s) with
      | Raise x => (Raise x, written f EmptyString s)
      | Ok text =>
          match write_outcome (fs s) (<[f := EmptyString]> (files (fs s))) f text with
          | Stored => (Ok tt, written f text s)
          | Failed x kept => (Raise x, written f kept s)
          end
      end
  end.
Proof.
  unfold write, with_open, fs_open.
  destruct (open_error (fs s) (files (fs s)) p) as [x|]; [reflexivity |].
  cbv zeta. set (f := resolve (fs s) p). unfold bind at 1.
  set (s1 := with_fs _ s).
  pose proof (pretty_fs (fs s1) None None None s) as Hfs.
  assert (Hs1 : with_fs (fs s1) s = s1) by reflexivity.
  rewrite Hs1 in Hfs. rewrite <- Hfs.
  rewrite (pretty_run None None None s1).
  cbn [fst]. set (r := if py_bool _ then _ else _).
  destruct r as [text|x].
  - unfold fs_write. cbv zeta. unfold s1 at 1 2 3 4.
    cbn [fs with_fs set_files write_outcome files handles].
    rewrite lookup_insert_eq. cbn [default from_option id].
    destruct (write_outcome (fs s) (<[f:=EmptyString]> (files (fs s))) f text) as [|x kept];
      unfold fs_close, written, s1, with_fs, set_files;
      cbn [fs heap self files handles resolve open_error write_outcome];
      rewrite release_first, insert_insert_eq, ?lookup_insert_eq; reflexivity.
  - unfold fs_close, written, s1, with_fs, set_files.
    cbn [fs heap self files handles resolve open_error write_outcome].
    now rewrite release_first.
Qed.


(** C8 (amended). On every page, [pretty] renders the page and prettifies
    that string when the content argument is left out or is falsy (the empty
    string, [None]); it prettifies the given content when that is truthy. *)
Theorem pretty_renders_when_falsy (e f : option string) (s : State) :
  page_ok s ->
  exists out,
    render s = (Ok out, s) /\
    pretty soup_prettify None e f s =
      (soup_prettify (PStr out) e (default "minimal" f), s) /\
    (forall c, py_bool c = false ->
       pretty soup_prettify (Some c) e f s =
         (soup_prettify (PStr out) e (default "minimal" f), s)) /\
    (forall c, py_bool c = true ->
       pretty soup_prettify (Some c) e f s =
         (soup_prettify c e (default "minimal" f), s)).
Proof.
  intros Hok. eexists. split; [apply (render_ok s Hok) |]. repeat split.
  - rewrite pretty_run, (render_ok s Hok). reflexivity.
  - intros c Hc. rewrite pretty_run, (render_ok s Hok).
    change (default (PStr EmptyString) (Some c)) with c. now rewrite Hc.
  - intros c Hc. rewrite pretty_run.
    change (default (PStr EmptyString) (Some c)) with c. now rewrite Hc.
Qed.

End PrettifierFacts.


Lemma pretty_renders_when_falsy_witness :
  page_ok page0 /\
  pretty plain_prettify (Some (PStr "<b>x</b>")) None None page0 = (Ok "<b>x</b>", page0).
Proof.
  split; [exact page0_ok |].
  destruct (pretty_renders_when_falsy plain_prettify None None page0 page0_ok)
    as (out & _ & _ & _ & H).
  rewrite (H (PStr "<b>x</b>") eq_refl). reflexivity.
Defined.

(** C8, as stated, fails: content given explicitly but falsy is not what
    gets prettified; the rendered page is. *)
Lemma pretty_explicit_falsy_renders :
  fst (pretty plain_prettify (Some (PStr EmptyString)) None None page0) = fst (render page0) /\
  fst (pretty plain_prettify (Some (PStr EmptyString)) None None page0) <>
    plain_prettify (PStr EmptyString) None "minimal" /\
  fst (pretty plain_prettify (Some PNone) None None page0) <>
    plain_prettify PNone None "minimal".
Proof.
  repeat split.
  - vm_compute. discriminate.
  - vm_compute. discriminate.
Qed.

(** ** The page keeps its two sections *)

Lemma live_grow (C : ElemClass) (σ : list Element) (o : option loc) (e : Element) :
  live C σ o -> live C (σ ++ [e])%list o.
Proof.
  intros (l & x & Ho & Hl & Hc). exists l, x. repeat split; try assumption.
  rewrite lookup_app_l; [assumption | eapply lookup_lt_Some; eassumption].
Qed.

Lemma live_new (C : ElemClass) (σ : list Element) (e : Element) :
  cls e = C -> live C (σ ++ [e])%list (Some (length σ)).
Proof. intros Hc. exists (length σ), e. repeat split; [apply lookup_new | exact Hc]. Qed.

Lemma live_extend (C : ElemClass) (σ : list Element) (o : option loc) (l : loc) (text : string) :
  live C σ o -> live C (extend l text σ) o.
Proof.
  intros (l' & x & Ho & Hl & Hc). unfold extend.
  destruct (σ !! l) as [e|] eqn:He; [|now exists l', x].
  destruct (decide (l = l')) as [->|Hne].
  - rewrite Hl in He. injection He as <-.
    exists l', (mkElement (cls x) (tag_content x +:+ text) (props x)).
    split; [exact Ho |]. split; [| exact Hc].
    apply list_lookup_insert_eq. eapply lookup_lt_Some; eassumption.
  - exists l', x. repeat split; try assumption.
    now rewrite list_lookup_insert_ne.
Qed.

Lemma snd_discard {A} (m : M A) (s : State) : snd (discard m s) = snd (m s).
Proof. unfold discard, bind, ret. now destruct (m s) as [[a|x] s']. Qed.

Lemma set_head_state (args : list Fragment) (ps : list (string * string)) (s : State) :
  snd (set_head args ps s) = s \/
  exists ts, snd (set_head args ps s) = install_head (Head (join ts) ps) s.
Proof.
  rewrite set_head_run. destruct (has_key "self" ps); [now left |].
  destruct (all_str s args) as [ts|x]; [|now left].
  destruct (has_key "tag_content" ps); [now left |]. right. now exists ts.
Qed.

Lemma set_body_state (args : list Fragment) (ps : list (string * string)) (s : State) :
  snd (set_body args ps s) = s \/
  exists ts, snd (set_body args ps s) = install_body (Body (join ts) ps) s.
Proof.
  rewrite set_body_run. destruct (has_key "self" ps); [now left |].
  destruct (all_str s args) as [ts|x]; [|now left].
  destruct (has_key "tag_content" ps); [now left |]. right. now exists ts.
Qed.

Section Invariant.

Variable soup_prettify : PyVal -> option string -> string -> Result string.

Lemma write_frame (path : string) (s : State) :
  heap (snd (write soup_prettify path s)) = heap s /\
  self (snd (write soup_prettify path s)) = self s.
Proof.
  rewrite write_run. destruct (open_error (fs s) (files (fs s)) path); [now split |].
  cbv zeta. destruct (fst (pretty soup_prettify None None None s)) as [t|x]; [|now split].
  destruct (write_outcome (fs s) _ _ t); now split.
Qed.

Lemma step_keeps_sections (op : Op) (s : State) :
  owns_sections s -> owns_sections (exec soup_prettify s op).
Proof.
  intros Hown. pose proof Hown as [Hh Hb]. unfold exec.
  destruct op as [args ps|args ps|args|args| |c e f|path]; cbn [step].
  - rewrite snd_discard. destruct (set_head_state args ps s) as [->|[ts ->]]; [exact Hown |].
    split; [now apply live_new | now apply live_grow].
  - rewrite snd_discard. destruct (set_body_state args ps s) as [->|[ts ->]]; [exact Hown |].
    split; [now apply live_grow | now apply live_new].
  - rewrite snd_discard. destruct Hh as (l & x & Hl & Hx & Hc).
    unfold add_tag_to_head. rewrite (add_run head args s l x Hl Hx).
    split; apply live_extend; [now exists l, x | exact Hb].
  - rewrite snd_discard. destruct Hb as (l & x & Hl & Hx & Hc).
    unfold add_tag_to_body. rewrite (add_run body args s l x Hl Hx).
    split; apply live_extend; [exact Hh | now exists l, x].
  - rewrite snd_discard, render_pure. exact Hown.
  - rewrite snd_discard, pretty_run. exact Hown.
  - destruct (write_frame path s) as [H1 H2].
    unfold owns_sections. now rewrite H1, H2.
Qed.

Lemma new_page_owns_sections (head_arg body_arg : PyVal) (lang_arg : option string)
    (σ : list Element) (w : FileSystem) :
  owns_sections (snd (HTMLPage_new head_arg body_arg lang_arg σ w)).
Proof.
  rewrite HTMLPage_new_spec. cbn [snd]. split.
  - exists (length σ). eexists. repeat split.
    + cbn [heap]. rewrite lookup_app_r by lia. rewrite Nat.sub_diag. reflexivity.
    + now destruct (py_bool head_arg).
  - exists (S (length σ)). eexists. repeat split.
    + cbn [heap]. rewrite lookup_app_r by lia.
      replace (S (length σ) - length σ) with 1 by lia. reflexivity.
    + now destruct (py_bool body_arg).
Qed.

(** C6. From its construction on, and after every operation ([set_head],
    [set_body], [add_tag_to_head], [add_tag_to_body], [render], [pretty],
    [write]), whether it returned or raised, the page owns one [Head] object
    and one [Body] object: both attributes are set and refer to live objects
    of their class. *)
Theorem page_always_owns_sections (head_arg body_arg : PyVal) (lang_arg : option string)
    (σ : list Element) (w : FileSystem) (ops : list Op) :
  owns_sections (exec_all soup_prettify ops (snd (HTMLPage_new head_arg body_arg lang_arg σ w))).
Proof.
  generalize (new_page_owns_sections head_arg body_arg lang_arg σ w).
  generalize (snd (HTMLPage_new head_arg body_arg lang_arg σ w)) as s.
  unfold exec_all. induction ops as [|op rest IH]; intros s Hs; cbn [fold_left].
  - exact Hs.
  - apply IH. now apply step_keeps_sections.
Qed.

End Invariant.

(** ** The language attribute *)

Lemma starts_with_cut (c : ascii) (b : string) :
  forall pat a, lacks c pat = true ->
    starts_with pat (a +:+ String c b) = starts_with pat a.
Proof.
  intros pat a. revert pat. induction a as [|x a IH]; intros [|p pat] Hl; try reflexivity.
  - cbn [lacks] in Hl. apply andb_true_iff in Hl as [Hp _].
    rewrite append_nil_l. cbn [starts_with].
    rewrite Ascii.eqb_sym. apply negb_true_iff in Hp. now rewrite Hp.
  - cbn [lacks] in Hl. apply andb_true_iff in Hl as [_ Hl].
    rewrite append_cons. cbn [starts_with]. now rewrite (IH pat Hl).
Qed.

Lemma occurrences_cut (pat : string) (c : ascii) (a b : string) :
  lacks c pat = true ->
  occurrences pat (a +:+ String c b) = occurrences pat a + occurrences pat b.
Proof.
  intros Hl. induction a as [|x a IH].
  - rewrite append_nil_l. cbn [occurrences]. destruct pat as [|p pat]; [reflexivity |].
    rewrite <- (append_nil_l (String c b)), (starts_with_cut c b _ EmptyString Hl).
    reflexivity.
  - rewrite append_cons. cbn [occurrences]. rewrite IH.
    rewrite <- append_cons, (starts_with_cut c b pat (String x a) Hl). lia.
Qed.

Lemma starts_with_short (pat s : string) :
  String.length s < String.length pat -> starts_with pat s = false.
Proof.
  revert s. induction pat as [|p pat IH]; intros [|c s] Hlen; cbn in *; try lia; try reflexivity.
  rewrite IH by lia. apply andb_false_r.
Qed.

Lemma occurrences_short (pat s : string) :
  String.length s < String.length pat -> occurrences pat s = 0.
Proof.
  induction s as [|c s IH]; intros Hlen; [reflexivity |].
  cbn [occurrences]. rewrite (starts_with_short pat (String c s) Hlen).
  cbn [String.length] in Hlen. rewrite IH by lia. now destruct pat.
Qed.

Lemma occurrences_self (p : ascii) (t : string) :
  occurrences (String p t) (String p t) = 1.
Proof.
  cbn [occurrences].
  rewrite <- (append_nil_r (String p t)) at 2. rewrite starts_with_append.
  rewrite occurrences_short; [reflexivity | cbn [String.length]; lia].
Qed.

Lemma lacks_append (c : ascii) (a b : string) :
  lacks c (a +:+ b) = lacks c a && lacks c b.
Proof.
  induction a as [|x a IH]; [reflexivity |].
  rewrite append_cons. cbn [lacks]. now rewrite IH, andb_assoc.
Qed.

Lemma lang_char_not_gt (c : ascii) : lang_char c = true -> Ascii.eqb ">" c = false.
Proof.
  destruct c as [[] [] [] [] [] [] [] []]; intros H; try reflexivity; vm_compute in H; discriminate H.
Qed.

Lemma valid_lang_lacks_gt (L : string) : valid_lang L = true -> lacks ">" L = true.
Proof.
  unfold valid_lang. intros H. apply andb_true_iff in H as [_ H].
  induction L as [|c L IH]; [reflexivity |].
  cbn [all_chars] in H. apply andb_true_iff in H as [Hc HL].
  cbn [lacks]. now rewrite (lang_char_not_gt c Hc), IH.
Qed.

Lemma lang_attr_lacks_gt (L : string) : valid_lang L = true -> lacks ">" (lang_attr L) = true.
Proof.
  intros H. unfold lang_attr. rewrite !lacks_append, (valid_lang_lacks_gt L H). reflexivity.
Qed.

Lemma lang_attr_cons (L : string) :
  lang_attr L = String "l" (String "a" ("ng=" +:+ dq +:+ L +:+ dq)).
Proof. reflexivity. Qed.

Lemma Element_str_closed (e : Element) : exists t, Element_str e = t +:+ ">".
Proof.
  unfold Element_str. destruct (cls e);
    try (eexists; rewrite <- !append_assoc; reflexivity).
  now exists "<!DOCTYPE html".
Qed.

Lemma occurrences_after_closed (pat x y : string) :
  lacks ">" pat = true -> (exists t, x = t +:+ ">") ->
  occurrences pat (x +:+ y) = occurrences pat x + occurrences pat y.
Proof.
  intros Hl [t ->]. rewrite append_assoc.
  change (">" +:+ y) with (String ">" y). rewrite !(occurrences_cut pat ">" t _ Hl).
  cbn [occurrences]. lia.
Qed.

Lemma section_str_closed (C : ElemClass) (sec : HTMLPage -> option loc) (s : State) :
  live C (heap s) (sec (self s)) -> exists t, section_str sec s = t +:+ ">".
Proof.
  intros (l & e & Hl & He & _). unfold section_str. rewrite Hl. cbn [py_str]. rewrite He.
  apply Element_str_closed.
Qed.

Lemma occurrences_document (L hs bs : string) :
  valid_lang L = true ->
  (exists t, hs = t +:+ ">") -> (exists t, bs = t +:+ ">") ->
  occurrences (lang_attr L)
    (doctype_token +:+ "<html " +:+ lang_attr L +:+ ">" +:+ (hs +:+ bs) +:+ "</html>") =
  1 + occurrences (lang_attr L) hs + occurrences (lang_attr L) bs.
Proof.
  intros HL Hhs Hbs. pose proof (lang_attr_lacks_gt L HL) as Hgt.
  set (pat := lang_attr L) in *.
  assert (Hpre : forall rest,
    occurrences pat (doctype_token +:+ "<html " +:+ rest) = occurrences pat rest).
  { intros rest. unfold pat. rewrite lang_attr_cons. reflexivity. }
  assert (Hend : occurrences pat "</html>" = 0).
  { unfold pat. rewrite lang_attr_cons. reflexivity. }
  rewrite Hpre.
  change (">" +:+ (hs +:+ bs) +:+ "</html>") with (String ">" ((hs +:+ bs) +:+ "</html>")).
  rewrite (occurrences_cut pat ">" pat _ Hgt).
  rewrite append_assoc.
  rewrite (occurrences_after_closed pat hs _ Hgt Hhs).
  rewrite (occurrences_after_closed pat bs _ Hgt Hbs), Hend.
  unfold pat at 1 2. rewrite lang_attr_cons, occurrences_self. lia.
Qed.

(** C9 (amended). For every valid language code [L] and every head and body,
    the html element of the rendered page carries the one attribute [lang]
    with the value [L], and the output holds that attribute text once more
    than the string forms of the head and the body hold it: exactly once when
    they do not hold it. *)
Theorem render_lang_attribute (s : State) (L : string) :
  page_ok s -> lang (self s) = L -> valid_lang L = true ->
  exists out,
    render s = (Ok out, s) /\
    out = doctype_token +:+
          Element_str (Html (section_str head s +:+ section_str body s) [("lang", L)]) /\
    out = doctype_token +:+ "<html " +:+ lang_attr L +:+ ">" +:+
          (section_str head s +:+ section_str body s) +:+ "</html>" /\
    occurrences (lang_attr L) out =
      1 + occurrences (lang_attr L) (section_str head s)
        + occurrences (lang_attr L) (section_str body s) /\
    (occurrences (lang_attr L) (section_str head s) = 0 ->
     occurrences (lang_attr L) (section_str body s) = 0 ->
     occurrences (lang_attr L) out = 1).
Proof.
  intros Hok HL Hv. pose proof Hok as [_ [Hh Hb]].
  assert (Hocc : occurrences (lang_attr L)
            (doctype_token +:+ "<html " +:+ lang_attr L +:+ ">" +:+
             (section_str head s +:+ section_str body s) +:+ "</html>") =
          1 + occurrences (lang_attr L) (section_str head s)
            + occurrences (lang_attr L) (section_str body s)).
  { apply (occurrences_document L _ _ Hv).
    - exact (section_str_closed ClsHead head s Hh).
    - exact (section_str_closed ClsBody body s Hb). }
  eexists. split; [apply (render_ok s Hok) |]. rewrite HL, Html_str.
  split; [reflexivity |]. split; [reflexivity |]. split; [exact Hocc |].
  intros H0 H1. rewrite Hocc, H0, H1. reflexivity.
Qed.

Lemma render_lang_attribute_witness :
  page_ok page0 /\ lang (self page0) = "fr" /\ valid_lang "fr" = true /\
  exists out, render page0 = (Ok out, page0) /\ occurrences (lang_attr "fr") out = 1.
Proof.
  split; [exact page0_ok |]. split; [reflexivity |]. split; [reflexivity |].
  destruct (render_lang_attribute page0 "fr" page0_ok eq_refl eq_refl)
    as (out & Hr & _ & _ & _ & H1).
  exists out. split; [exact Hr |]. apply H1; reflexivity.
Defined.

(** C9, as stated, fails: a body that itself holds the attribute text makes
    the output hold it twice. *)
Lemma render_lang_twice :
  page_ok page_en /\ lang (self page_en) = "en" /\ valid_lang "en" = true /\
  exists out, render page_en = (Ok out, page_en) /\
    occurrences (lang_attr "en") out = 2 /\ occurrences (lang_attr "en") out <> 1.
Proof.
  split.
  { split; [reflexivity |]. split; [exists 0 | exists 1]; eexists; repeat split. }
  split; [reflexivity |]. split; [reflexivity |].
  eexists. split; [reflexivity |]. split; [reflexivity | vm_compute; discriminate].
Qed.

(** * Further properties of the page operations *)

(** ** Sections do not interfere *)


Lemma sections_apart (s : State) (lh lb : loc) :
  owns_sections s -> head (self s) = Some lh -> body (self s) = Some lb -> lh <> lb.
Proof.
  intros [(l1 & e1 & H1 & Hl1 & Hc1) (l2 & e2 & H2 & Hl2 & Hc2)] Hh Hb ->.
  rewrite Hh in H1. rewrite Hb in H2. injection H1 as <-. injection H2 as <-.
  rewrite Hl1 in Hl2. injection Hl2 as <-. rewrite Hc1 in Hc2. discriminate Hc2.
Qed.

(** X2. Work on one section leaves the other as it is: after [set_head] or
    [add_tag_to_head] the body has the string form it had, and after
    [set_body] or [add_tag_to_body] the head has. *)
Theorem other_section_untouched (args : list Fragment) (ps : list (string * string)) (s : State) :
  owns_sections s ->
  section_str body (snd (set_head args ps s)) = section_str body s /\
  section_str body (snd (add_tag_to_head args s)) = section_str body s /\
  section_str head (snd (set_body args ps s)) = section_str head s /\
  section_str head (snd (add_tag_to_body args s)) = section_str head s.
Proof.
  intros Hown. pose proof Hown as [(lh & eh & Hh & Hlh & _) (lb & eb & Hb & Hlb & _)].
  pose proof (sections_apart s lh lb Hown Hh Hb) as Hne.
  repeat split.
  - destruct (set_head_state args ps s) as [->|[ts ->]]; [reflexivity |].
    unfold section_str, install_head. cbn [self heap body py_str]. rewrite Hb.
    rewrite lookup_app_l; [reflexivity | eapply lookup_lt_Some; exact Hlb].
  - unfold add_tag_to_head. rewrite (add_run head args s lh eh Hh Hlh).
    unfold section_str. cbn [snd self heap with_heap py_str]. rewrite Hb.
    now rewrite lookup_extend_ne.
  - destruct (set_body_state args ps s) as [->|[ts ->]]; [reflexivity |].
    unfold section_str, install_body. cbn [self heap head py_str]. rewrite Hh.
    rewrite lookup_app_l; [reflexivity | eapply lookup_lt_Some; exact Hlh].
  - unfold add_tag_to_body. rewrite (add_run body args s lb eb Hb Hlb).
    unfold section_str. cbn [snd self heap with_heap py_str]. rewrite Hh.
    rewrite lookup_extend_ne; [reflexivity | congruence].
Qed.

Lemma other_section_untouched_witness :
  owns_sections page0 /\
  section_str body (snd (add_tag_to_head [FVal (PStr "<title>t</title>"); FPage] page0)) =
  "<body></body>".
Proof.
  split; [exact (proj2 page0_ok) |].
  destruct (other_section_untouched [FVal (PStr "<title>t</title>"); FPage] [] page0
              (proj2 page0_ok)) as (_ & H & _).
  rewrite H. reflexivity.
Defined.

(** ** How appends and replacements compose *)


Lemma pair_eta {A B} (p : A * B) : (fst p, snd p) = p.
Proof. now destruct p. Qed.

Lemma appended_forms_app (l : loc) (xs ys : list Fragment) :
  forall s,
    appended_forms s l (xs ++ ys) =
    match snd (appended_forms s l xs) with
    | Some x => appended_forms s l xs
    | None =>
        let r := appended_forms
                   (with_heap (extend l (fst (appended_forms s l xs)) (heap s)) s) l ys in
        (fst (appended_forms s l xs) +:+ fst r, snd r)
    end.
Proof.
  induction xs as [|tag xs IH]; intros s.
  - cbn [app appended_forms fst snd]. cbv zeta.
    now rewrite extend_nil, with_heap_same, append_nil_l, pair_eta.
  - cbn [app appended_forms]. destruct (frag_str s tag) as [t|x]; [|reflexivity].
    rewrite IH.
    destruct (appended_forms (with_heap (extend l t (heap s)) s) l xs) as [a [x|]];
      cbn [fst snd]; [reflexivity |].
    cbv zeta. cbn [fst snd heap with_heap]. unfold with_heap. cbn [heap self fs].
    rewrite extend_extend, append_assoc. reflexivity.
Qed.

Lemma add_twice (sec : HTMLPage -> option loc) (xs ys : list Fragment) (s : State)
    (l : loc) (e : Element) :
  sec (self s) = Some l -> heap s !! l = Some e ->
  ((for_each (append_content sec) xs ;;; get_attr sec) ;;;
   (for_each (append_content sec) ys ;;; get_attr sec)) s =
  (for_each (append_content sec) (xs ++ ys) ;;; get_attr sec) s.
Proof.
  intros Hl He. unfold bind at 1.
  rewrite (add_run sec xs s l e Hl He), (add_run sec (xs ++ ys) s l e Hl He).
  rewrite appended_forms_app.
  destruct (snd (appended_forms s l xs)) as [x|] eqn:Hr.
  - cbn [outcome]. now rewrite Hr.
  - cbn [outcome]. cbv zeta.
    set (s1 := with_heap (extend l (fst (appended_forms s l xs)) (heap s)) s).
    assert (He1 : heap s1 !! l = Some (mkElement (cls e)
              (tag_content e +:+ fst (appended_forms s l xs)) (props e)))
      by (apply lookup_extend_eq; exact He).
    rewrite (add_run sec ys s1 l _ Hl He1). cbn [fst snd].
    unfold s1 at 2 3. cbn [heap with_heap]. unfold with_heap. cbn [heap self fs].
    now rewrite extend_extend.
Qed.

(** X3. Two appends in a row are one append of all the fragments:
    [add_tag_to_head(xs)] followed by [add_tag_to_head(ys)] returns the same
    object and leaves the same state as [add_tag_to_head(xs + ys)]; likewise
    for the body. *)
Theorem add_tag_compose (xs ys : list Fragment) (s : State) :
  owns_sections s ->
  (add_tag_to_head xs ;;; add_tag_to_head ys) s = add_tag_to_head (xs ++ ys) s /\
  (add_tag_to_body xs ;;; add_tag_to_body ys) s = add_tag_to_body (xs ++ ys) s.
Proof.
  intros [(lh & eh & Hh & Hlh & _) (lb & eb & Hb & Hlb & _)]. split.
  - exact (add_twice head xs ys s lh eh Hh Hlh).
  - exact (add_twice body xs ys s lb eb Hb Hlb).
Qed.

Lemma add_tag_compose_witness :
  owns_sections page0 /\
  (add_tag_to_body [FVal (PStr "<p>a</p>"); FPage] ;;;
   add_tag_to_body [FVal (PInt 1); FVal (PObj 0); FOther (fun _ => Raise TypeError)]) page0 =
  add_tag_to_body [FVal (PStr "<p>a</p>"); FPage; FVal (PInt 1); FVal (PObj 0);
                   FOther (fun _ => Raise TypeError)] page0.
Proof.
  split; [exact (proj2 page0_ok) |].
  exact (proj2 (add_tag_compose [FVal (PStr "<p>a</p>"); FPage]
                  [FVal (PInt 1); FVal (PObj 0); FOther (fun _ => Raise TypeError)] page0
                  (proj2 page0_ok))).
Defined.










(** ** References held by the caller *)

Lemma set_then_add_head_state (args xs : list Fragment) (ps : list (string * string))
    (s : State) :
  snd ((set_head args ps ;;; add_tag_to_head xs) s) = s \/
  exists ts text,
    all_str s args = Ok ts /\ clashes ps = false /\
    snd ((set_head args ps ;;; add_tag_to_head xs) s) =
    with_heap (extend (length (heap s)) text (heap s ++ [Head (join ts) ps])%list)
      (install_head (Head (join ts) ps) s).
Proof.
  set (r := (set_head args ps ;;; add_tag_to_head xs) s).
  assert (Hr : r = match set_head args ps s with
                   | (Ok _, s1) => add_tag_to_head xs s1
                   | (Raise x, s1) => (Raise x, s1)
                   end) by reflexivity.
  rewrite set_head_run in Hr. unfold clashes.
  destruct (has_key "self" ps); [left; now rewrite Hr |].
  destruct (all_str s args) as [ts|x]; [|left; now rewrite Hr].
  destruct (has_key "tag_content" ps); [left; now rewrite Hr |].
  right. exists ts. eexists. split; [reflexivity |]. split; [reflexivity |].
  rewrite Hr. unfold add_tag_to_head.
  now rewrite (add_run head xs (install_head _ s) (length (heap s)) _
                 eq_refl (lookup_new _ _)).
Qed.

Lemma set_then_add_body_state (args xs : list Fragment) (ps : list (string * string))
    (s : State) :
  snd ((set_body args ps ;;; add_tag_to_body xs) s) = s \/
  exists ts text,
    all_str s args = Ok ts /\ clashes ps = false /\
    snd ((set_body args ps ;;; add_tag_to_body xs) s) =
    with_heap (extend (length (heap s)) text (heap s ++ [Body (join ts) ps])%list)
      (install_body (Body (join ts) ps) s).
Proof.
  set (r := (set_body args ps ;;; add_tag_to_body xs) s).
  assert (Hr : r = match set_body args ps s with
                   | (Ok _, s1) => add_tag_to_body xs s1
                   | (Raise x, s1) => (Raise x, s1)
                   end) by reflexivity.
  rewrite set_body_run in Hr. unfold clashes.
  destruct (has_key "self" ps); [left; now rewrite Hr |].
  destruct (all_str s args) as [ts|x]; [|left; now rewrite Hr].
  destruct (has_key "tag_content" ps); [left; now rewrite Hr |].
  right. exists ts. eexists. split; [reflexivity |]. split; [reflexivity |].
  rewrite Hr. unfold add_tag_to_body.
  now rewrite (add_run body xs (install_body _ s) (length (heap s)) _
                 eq_refl (lookup_new _ _)).
Qed.

Lemma old_objects_kept (σ : list Element) (h : Element) (text : string) (l : loc)
    (e : Element) :
  σ !! l = Some e -> extend (length σ) text (σ ++ [h])%list !! l = Some e.
Proof.
  intros Hl. assert (Hlt : l < length σ) by (eapply lookup_lt_Some; exact Hl).
  rewrite lookup_extend_ne by lia. now rewrite lookup_app_l.
Qed.

(** X5. A reference taken before [set_head] no longer follows the page: no
    object that was in the store is changed by the replacement or by later
    [add_tag_to_head] calls, the former head among them, whatever the outcome
    of the calls; and when [set_head] returns (no clashing key, every fragment
    converts) the page's head is a new object, none of those that were in the
    store; likewise for the body. *)
Theorem replaced_section_detached (args xs : list Fragment) (ps : list (string * string))
    (s : State) :
  (forall l e, heap s !! l = Some e ->
     heap (snd ((set_head args ps ;;; add_tag_to_head xs) s)) !! l = Some e /\
     heap (snd ((set_body args ps ;;; add_tag_to_body xs) s)) !! l = Some e) /\
  (forall ts, clashes ps = false -> all_str s args = Ok ts ->
     (let s2 := snd ((set_head args ps ;;; add_tag_to_head xs) s) in
      head (self s2) = Some (length (heap s)) /\
      forall l e, heap s !! l = Some e ->
        heap s2 !! l = Some e /\ head (self s2) <> Some l) /\
     (let s2 := snd ((set_body args ps ;;; add_tag_to_body xs) s) in
      body (self s2) = Some (length (heap s)) /\
      forall l e, heap s !! l = Some e ->
        heap s2 !! l = Some e /\ body (self s2) <> Some l)).
Proof.
  assert (Hkept : forall l e, heap s !! l = Some e ->
     heap (snd ((set_head args ps ;;; add_tag_to_head xs) s)) !! l = Some e /\
     heap (snd ((set_body args ps ;;; add_tag_to_body xs) s)) !! l = Some e).
  { intros l e Hl. split.
    - destruct (set_then_add_head_state args xs ps s) as [->|(ts & text & _ & _ & ->)];
        [exact Hl |].
      cbn [heap with_heap]. now apply old_objects_kept.
    - destruct (set_then_add_body_state args xs ps s) as [->|(ts & text & _ & _ & ->)];
        [exact Hl |].
      cbn [heap with_heap]. now apply old_objects_kept. }
  split; [exact Hkept |].
  intros ts Hps Hts. destruct (clash_cases ps Hps) as [Hk1 Hk2]. split; cbv zeta.
  - assert (Hhead : head (self (snd ((set_head args ps ;;; add_tag_to_head xs) s))) =
                    Some (length (heap s))).
    { unfold bind at 1. rewrite set_head_run, Hk1, Hts, Hk2. unfold add_tag_to_head.
      now rewrite (add_run head xs (install_head _ s) (length (heap s)) _
                     eq_refl (lookup_new _ _)). }
    split; [exact Hhead |]. intros l e Hl. split; [exact (proj1 (Hkept l e Hl)) |].
    rewrite Hhead. intros [= Heq].
    assert (l < length (heap s)) by (eapply lookup_lt_Some; exact Hl). lia.
  - assert (Hbody : body (self (snd ((set_body args ps ;;; add_tag_to_body xs) s))) =
                    Some (length (heap s))).
    { unfold bind at 1. rewrite set_body_run, Hk1, Hts, Hk2. unfold add_tag_to_body.
      now rewrite (add_run body xs (install_body _ s) (length (heap s)) _
                     eq_refl (lookup_new _ _)). }
    split; [exact Hbody |]. intros l e Hl. split; [exact (proj2 (Hkept l e Hl)) |].
    rewrite Hbody. intros [= Heq].
    assert (l < length (heap s)) by (eapply lookup_lt_Some; exact Hl). lia.
Qed.

Lemma replaced_section_detached_witness :
  clashes [] = false /\
  heap (snd ((set_head [FVal (PStr "new")] [] ;;; add_tag_to_head [FVal (PStr "er")]) page0))
    !! 0 = Some (Head "None" []).
Proof.
  split; [reflexivity |].
  destruct (replaced_section_detached [FVal (PStr "new")] [FVal (PStr "er")] [] page0)
    as [_ H].
  destruct (H ["new"] eq_refl eq_refl) as [[_ H1] _].
  exact (proj1 (H1 0 (Head "None" []) eq_refl)).
Defined.

Lemma turn_fragment (sec : HTMLPage -> option loc) (pre : list Fragment) (last : Fragment)
    (s : State) (l : loc) (e : Element) (ts : list string) (t : string) :
  sec (self s) = Some l -> heap s !! l = Some e ->
  Forall (apart_from l) pre -> all_str s pre = Ok ts ->
  frag_str (with_heap (extend l (join ts) (heap s)) s) last = Ok t ->
  (for_each (append_content sec) (pre ++ [last]) ;;; get_attr sec) s =
  (Ok l, with_heap (extend l (join ts +:+ t) (heap s)) s).
Proof.
  intros Hl He Hpre Hts Hlast. rewrite (add_run sec _ s l e Hl He).
  rewrite appended_forms_app, (appended_forms_join s l pre ts Hpre Hts).
  cbn [fst snd]. cbv zeta. cbn [appended_forms]. rewrite Hlast.
  cbn [fst snd outcome]. now rewrite append_nil_r.
Qed.

Lemma content_after_extend (sec : HTMLPage -> option loc) (s : State) (l : loc)
    (e : Element) (text : string) :
  sec (self s) = Some l -> heap s !! l = Some e ->
  section_content sec (with_heap (extend l text (heap s)) s) = tag_content e +:+ text.
Proof.
  intros Hl He. unfold section_content. cbn [self heap with_heap]. rewrite Hl.
  now rewrite (lookup_extend_eq _ _ _ _ He).
Qed.

Lemma self_fragment (sec : HTMLPage -> option loc) (pre : list Fragment) (s : State)
    (l : loc) (e : Element) (ts : list string) :
  sec (self s) = Some l -> heap s !! l = Some e ->
  Forall (apart_from l) pre -> all_str s pre = Ok ts ->
  (section_content sec
     (snd ((for_each (append_content sec) (pre ++ [FVal (PObj l)]) ;;; get_attr sec) s)) =
   let c := tag_content e +:+ join ts in
   c +:+ Element_str (mkElement (cls e) c (props e))) /\
  (forall out,
     fst (render (with_heap (extend l (join ts) (heap s)) s)) = Ok out ->
     section_content sec
       (snd ((for_each (append_content sec) (pre ++ [FPage]) ;;; get_attr sec) s)) =
     (tag_content e +:+ join ts) +:+ out).
Proof.
  intros Hl He Hpre Hts. split.
  - rewrite (turn_fragment sec pre (FVal (PObj l)) s l e ts
               (Element_str (mkElement (cls e) (tag_content e +:+ join ts) (props e)))
               Hl He Hpre Hts).
    + cbn [snd]. rewrite (content_after_extend sec s l e _ Hl He). cbv zeta.
      now rewrite append_assoc.
    + cbn [frag_str py_str heap with_heap]. now rewrite (lookup_extend_eq _ _ _ _ He).
  - intros out Hout.
    rewrite (turn_fragment sec pre FPage s l e ts out Hl He Hpre Hts Hout).
    cbn [snd]. rewrite (content_after_extend sec s l e _ Hl He).
    now rewrite append_assoc.
Qed.

(** X6. A fragment that is the section itself, or the page, is read when its
    turn comes.  For fragments [pre] that all convert and are neither of the
    two sections nor the page, [add_tag_to_head(pre..., page.head)] appends
    the fragments [pre] and then the head's string form with those fragments
    already in it, and [add_tag_to_head(pre..., page)] appends them and then
    what [render] returns with them already in the head; likewise for the
    body. *)
Theorem self_fragment_read_at_turn (pre : list Fragment) (s : State) (lh lb : loc)
    (eh eb : Element) (ts : list string) :
  head (self s) = Some lh -> heap s !! lh = Some eh ->
  body (self s) = Some lb -> heap s !! lb = Some eb ->
  Forall (fun tag => apart_from lh tag /\ apart_from lb tag) pre ->
  all_str s pre = Ok ts ->
  (section_content head (snd (add_tag_to_head (pre ++ [FVal (PObj lh)]) s)) =
     (let c := tag_content eh +:+ join ts in
      c +:+ Element_str (mkElement (cls eh) c (props eh))) /\
   forall out,
     fst (render (with_heap (extend lh (join ts) (heap s)) s)) = Ok out ->
     section_content head (snd (add_tag_to_head (pre ++ [FPage]) s)) =
     (tag_content eh +:+ join ts) +:+ out) /\
  (section_content body (snd (add_tag_to_body (pre ++ [FVal (PObj lb)]) s)) =
     (let c := tag_content eb +:+ join ts in
      c +:+ Element_str (mkElement (cls eb) c (props eb))) /\
   forall out,
     fst (render (with_heap (extend lb (join ts) (heap s)) s)) = Ok out ->
     section_content body (snd (add_tag_to_body (pre ++ [FPage]) s)) =
     (tag_content eb +:+ join ts) +:+ out).
Proof.
  intros Hh Hlh Hb Hlb Hpre Hts. split.
  - apply (self_fragment head pre s lh eh ts Hh Hlh); [| exact Hts].
    eapply Forall_impl; [exact Hpre | now intros v [H _]].
  - apply (self_fragment body pre s lb eb ts Hb Hlb); [| exact Hts].
    eapply Forall_impl; [exact Hpre | now intros v [_ H]].
Qed.

Lemma self_fragment_read_at_turn_witness :
  section_content head (snd (add_tag_to_head [FVal (PStr "x"); FVal (PObj 0)] page0)) =
  "Nonex<head>Nonex</head>".
Proof.
  assert (Hpre : Forall (fun tag => apart_from 0 tag /\ apart_from 1 tag) [FVal (PStr "x")]).
  { repeat constructor; discriminate. }
  destruct (self_fragment_read_at_turn [FVal (PStr "x")] page0 0 1 (Head "None" [])
              (Body EmptyString []) ["x"] eq_refl eq_refl eq_refl eq_refl Hpre eq_refl)
    as [[H _] _].
  exact H.
Defined.

(** ** Pages reached from the constructor *)

Section Reachable.

Variable soup_prettify : PyVal -> option string -> string -> Result string.

Lemma step_keeps_fields (op : Op) (s : State) :
  owns_sections s ->
  lang (self (exec soup_prettify s op)) = lang (self s) /\
  template (self (exec soup_prettify s op)) = template (self s).
Proof.
  intros [(lh & eh & Hh & Hlh & _) (lb & eb & Hb & Hlb & _)]. unfold exec.
  destruct op as [args ps|args ps|args|args| |c e f|path]; cbn [step].
  - rewrite snd_discard. now destruct (set_head_state args ps s) as [->|[ts ->]].
  - rewrite snd_discard. now destruct (set_body_state args ps s) as [->|[ts ->]].
  - rewrite snd_discard. unfold add_tag_to_head.
    now rewrite (add_run head args s lh eh Hh Hlh).
  - rewrite snd_discard. unfold add_tag_to_body.
    now rewrite (add_run body args s lb eb Hb Hlb).
  - now rewrite snd_discard, render_pure.
  - now rewrite snd_discard, pretty_run.
  - destruct (write_frame soup_prettify path s) as [_ ->]. now split.
Qed.

Lemma exec_all_keeps_page (ops : list Op) (s : State) :
  page_ok s ->
  page_ok (exec_all soup_prettify ops s) /\
  lang (self (exec_all soup_prettify ops s)) = lang (self s).
Proof.
  revert s. unfold exec_all. induction ops as [|op rest IH]; intros s [Ht Hown]; cbn [fold_left].
  - split; [split; assumption | reflexivity].
  - destruct (step_keeps_fields op s Hown) as [Hl Htpl].
    destruct (IH (exec soup_prettify s op)) as [Hok HL].
    + split; [congruence | now apply step_keeps_sections].
    + split; [exact Hok | congruence].
Qed.

Lemma document_opens (L content : string) :
  starts_with (doctype_token +:+ "<html lang=" +:+ dq +:+ L +:+ dq +:+ ">")
    (doctype_token +:+ Element_str (Html content [("lang", L)])) = true.
Proof.
  rewrite Html_str. unfold lang_attr.
  replace (doctype_token +:+ "<html " +:+ ("lang=" +:+ dq +:+ L +:+ dq) +:+ ">" +:+
           content +:+ "</html>")
    with ((doctype_token +:+ "<html lang=" +:+ dq +:+ L +:+ dq +:+ ">") +:+
          (content +:+ "</html>"))
    by (rewrite !append_assoc; reflexivity).
  apply starts_with_append.
Qed.

(** X7. On a page built by the constructor, [render] returns normally after
    any sequence of operations, whether they returned or raised, and the
    document it returns opens with the doctype and the html tag carrying the
    language given at construction. *)
Theorem reachable_page_renders (head_arg body_arg : PyVal) (lang_arg : option string)
    (σ : list Element) (w : FileSystem) (ops : list Op) :
  let s := exec_all soup_prettify ops (snd (HTMLPage_new head_arg body_arg lang_arg σ w)) in
  exists out,
    render s = (Ok out, s) /\
    starts_with (doctype_token +:+ "<html lang=" +:+ dq +:+ default "en" lang_arg +:+ dq +:+ ">")
      out = true.
Proof.
  cbv zeta.
  assert (Hnew : page_ok (snd (HTMLPage_new head_arg body_arg lang_arg σ w))).
  { split; [now rewrite HTMLPage_new_spec | apply new_page_owns_sections]. }
  destruct (exec_all_keeps_page ops _ Hnew) as [Hok HL].
  eexists. split; [apply (render_ok _ Hok) |].
  rewrite HL, HTMLPage_new_spec. cbn [snd self lang]. apply document_opens.
Qed.

(** ** What [write] does to the files *)

(** X8. [write] is not all-or-nothing: the file is opened, and emptied,
    before [pretty] is evaluated.  When the path opens and the call then
    raises, what the file held before is gone: the file is empty if the
    pretty-printer raised, and holds only what got through if writing the text
    raised. *)
Theorem failed_write_truncates (path : string) (s : State) :
  open_error (fs s) (files (fs s)) path = None ->
  fst (write soup_prettify path s) <> Ok tt ->
  let f := resolve (fs s) path in
  let text := fst (pretty soup_prettify None None None s) in
  (exists x,
     text = Raise x /\ fst (write soup_prettify path s) = Raise x /\
     files (fs (snd (write soup_prettify path s))) !! f = Some EmptyString) \/
  (exists t x kept,
     text = Ok t /\
     write_outcome (fs s) (<[f := EmptyString]> (files (fs s))) f t = Failed x kept /\
     fst (write soup_prettify path s) = Raise x /\
     files (fs (snd (write soup_prettify path s))) !! f = Some kept).
Proof.
  intros Hop Hfail. cbv zeta. rewrite write_run, Hop in *. cbv zeta in *.
  destruct (fst (pretty soup_prettify None None None s)) as [t|x].
  - right.
    destruct (write_outcome (fs s) _ _ t) as [|x kept] eqn:Hw; [now contradiction Hfail |].
    exists t, x, kept. split; [reflexivity |]. split; [exact Hw |].
    split; [reflexivity |].
    cbn [snd written with_fs set_files fs files]. apply lookup_insert_eq.
  - left. exists x. split; [reflexivity |]. split; [reflexivity |].
    cbn [snd written with_fs set_files fs files]. apply lookup_insert_eq.
Qed.

(** X9. [write] changes only the file its path names: a path that names
    another file holds after the call what it held before, whatever the
    outcome. *)
Theorem write_leaves_other_files (path q : string) (s : State) :
  resolve (fs s) q <> resolve (fs s) path ->
  files (fs (snd (write soup_prettify path s))) !! resolve (fs s) q =
  files (fs s) !! resolve (fs s) q.
Proof.
  intros Hq. rewrite write_run.
  destruct (open_error (fs s) (files (fs s)) path); [reflexivity |]. cbv zeta.
  destruct (fst (pretty soup_prettify None None None s)) as [t|x].
  - destruct (write_outcome (fs s) _ _ t);
      cbn [snd written with_fs set_files fs files];
      now rewrite lookup_insert_ne.
  - cbn [snd written with_fs set_files fs files]. now rewrite lookup_insert_ne.
Qed.

(** X11. [pretty] changes nothing, also when the pretty-printer raises, and
    neither [pretty] nor [write] changes what [render] returns. *)
Theorem read_only_operations (c : option PyVal) (e f : option string) (path : string)
    (s : State) :
  snd (pretty soup_prettify c e f s) = s /\
  fst (render (snd (pretty soup_prettify c e f s))) = fst (render s) /\
  fst (render (snd (write soup_prettify path s))) = fst (render s).
Proof.
  split; [now rewrite pretty_run |]. split; [now rewrite pretty_run |].
  rewrite write_run. destruct (open_error (fs s) (files (fs s)) path); [reflexivity |].
  cbv zeta. destruct (fst (pretty soup_prettify None None None s)) as [t|x].
  - destruct (write_outcome (fs s) _ _ t); cbn [snd]; unfold written;
      now rewrite render_fs.
  - cbn [snd]. unfold written. now rewrite render_fs.
Qed.

End Reachable.

Lemma failed_write_truncates_witness :
  open_error (fs (with_fs old_disk page0)) (files (fs (with_fs old_disk page0)))
    "out.html" = None /\
  files (fs (with_fs old_disk page0)) !! "out.html" = Some "old" /\
  files (fs (snd (write failing_prettify "out.html" (with_fs old_disk page0)))) !! "out.html" =
    Some EmptyString.
Proof.
  split; [reflexivity |]. split; [reflexivity |].
  assert (Hfail : fst (write failing_prettify "out.html" (with_fs old_disk page0)) <> Ok tt)
    by (vm_compute; discriminate).
  destruct (failed_write_truncates failing_prettify "out.html" (with_fs old_disk page0)
              eq_refl Hfail) as [(x & _ & _ & H)|(t & x & kept & Ht & _)].
  - exact H.
  - vm_compute in Ht. discriminate Ht.
Defined.

Lemma write_leaves_other_files_witness :
  resolve (fs (with_fs old_disk page0)) "out.html" <>
  resolve (fs (with_fs old_disk page0)) "a.html" /\
  files (fs (snd (write plain_prettify "a.html" (with_fs old_disk page0)))) !! "out.html" =
  Some "old".
Proof.
  assert (H : resolve (fs (with_fs old_disk page0)) "out.html" <>
              resolve (fs (with_fs old_disk page0)) "a.html") by discriminate.
  split; [exact H |].
  exact (write_leaves_other_files plain_prettify "a.html" "out.html"
           (with_fs old_disk page0) H).
Defined.

(** ** Truthy initial sections *)

(** X12. Built with a truthy head and a truthy body, the page renders as the
    empty document in the given language, whatever the two arguments were. *)
Theorem truthy_arguments_render_empty (head_arg body_arg : PyVal) (L : string)
    (σ : list Element) (w : FileSystem) :
  py_bool head_arg = true -> py_bool body_arg = true ->
  fst (render (snd (HTMLPage_new head_arg body_arg (Some L) σ w))) =
  Ok (doctype_token +:+ "<html lang=" +:+ dq +:+ L +:+ dq +:+
      "><head></head><body></body></html>").
Proof.
  intros Hh Hb. rewrite HTMLPage_new_spec, Hh, Hb. cbn [snd].
  rewrite render_ok.
  - cbn [fst]. unfold section_str. cbn [self heap head body lang py_str].
    rewrite lookup_app_r by lia. rewrite Nat.sub_diag.
    rewrite lookup_app_r by lia. replace (S (length σ) - length σ) with 1 by lia.
    cbn [lookup list_lookup]. rewrite Html_str. unfold lang_attr.
    rewrite !append_assoc. reflexivity.
  - split; [reflexivity |]. split.
    + exists (length σ), (Head EmptyString []). repeat split.
      cbn [heap]. rewrite lookup_app_r by lia. now rewrite Nat.sub_diag.
    + exists (S (length σ)), (Body EmptyString []). repeat split.
      cbn [heap]. rewrite lookup_app_r by lia.
      now replace (S (length σ) - length σ) with 1 by lia.
Qed.

Lemma truthy_arguments_render_empty_witness :
  py_bool (PStr "<title>t</title>") = true /\ py_bool (PObj 0) = true /\
  fst (render (snd (HTMLPage_new (PStr "<title>t</title>") (PObj 0) (Some "de")
                      [Body "<p>text</p>" []] fs0))) =
  Ok (doctype_token +:+ "<html lang=" +:+ dq +:+ "de" +:+ dq +:+
      "><head></head><body></body></html>").
Proof.
  split; [reflexivity |]. split; [reflexivity |].
  exact (truthy_arguments_render_empty (PStr "<title>t</title>") (PObj 0) "de"
           [Body "<p>text</p>" []] fs0 eq_refl eq_refl).
Defined.

(** ** Appends show in the document *)

Lemma page_ok_extend (s : State) (l : loc) (text : string) :
  page_ok s -> page_ok (with_heap (extend l text (heap s)) s).
Proof.
  intros [Ht [Hh Hb]]. split; [exact Ht |].
  split; cbn [heap self with_heap]; now apply live_extend.
Qed.

Lemma section_str_extend_eq (sec : HTMLPage -> option loc) (s : State) (l : loc)
    (e : Element) (text : string) :
  sec (self s) = Some l -> heap s !! l = Some e ->
  section_str sec (with_heap (extend l text (heap s)) s) =
  Element_str (mkElement (cls e) (tag_content e +:+ text) (props e)).
Proof.
  intros Hl He. unfold section_str. cbn [self heap with_heap py_str]. rewrite Hl.
  now rewrite (lookup_extend_eq _ _ _ _ He).
Qed.

Lemma section_str_extend_ne (sec : HTMLPage -> option loc) (s : State) (l l' : loc)
    (text : string) :
  sec (self s) = Some l' -> l <> l' ->
  section_str sec (with_heap (extend l text (heap s)) s) = section_str sec s.
Proof.
  intros Hl Hne. unfold section_str. cbn [self heap with_heap py_str]. rewrite Hl.
  now rewrite lookup_extend_ne.
Qed.

(** X13. What is appended shows in the next rendering, at the end of its
    section.  For fragments that all convert and are neither of the two
    sections nor the page: after [add_tag_to_body(args)] the document is the
    one before with the string forms of the fragments, in call order, put just
    before the closing body tag; after [add_tag_to_head(args)], just before
    the closing head tag. *)
Theorem render_after_append (args : list Fragment) (s : State) (lh lb : loc)
    (eh eb : Element) (ts : list string) :
  page_ok s ->
  head (self s) = Some lh -> heap s !! lh = Some eh ->
  body (self s) = Some lb -> heap s !! lb = Some eb ->
  Forall (fun tag => apart_from lh tag /\ apart_from lb tag) args ->
  all_str s args = Ok ts ->
  let added := join ts in
  fst (render (snd (add_tag_to_head args s))) =
    Ok (doctype_token +:+ "<html " +:+ lang_attr (lang (self s)) +:+ ">" +:+
        ("<head" +:+ render_props (props eh) +:+ ">" +:+ tag_content eh +:+ added +:+ "</head>")
        +:+ section_str body s +:+ "</html>") /\
  fst (render (snd (add_tag_to_body args s))) =
    Ok (doctype_token +:+ "<html " +:+ lang_attr (lang (self s)) +:+ ">" +:+
        section_str head s +:+
        ("<body" +:+ render_props (props eb) +:+ ">" +:+ tag_content eb +:+ added +:+ "</body>")
        +:+ "</html>").
Proof.
  intros Hok Hh Hlh Hb Hlb Hargs Hts added.
  pose proof (sections_apart s lh lb (proj2 Hok) Hh Hb) as Hne.
  assert (Hch : cls eh = ClsHead /\ cls eb = ClsBody).
  { destruct Hok as [_ [(l1 & e1 & H1 & Hl1 & Hc1) (l2 & e2 & H2 & Hl2 & Hc2)]].
    rewrite Hh in H1. rewrite Hb in H2. injection H1 as <-. injection H2 as <-.
    rewrite Hlh in Hl1. rewrite Hlb in Hl2. injection Hl1 as <-. injection Hl2 as <-.
    now split. }
  destruct Hch as [Hceh Hceb]. split.
  - unfold add_tag_to_head. rewrite (add_run head args s lh eh Hh Hlh). cbn [snd].
    rewrite (render_ok _ (page_ok_extend s lh _ Hok)). cbn [fst self with_heap].
    rewrite (section_str_extend_eq head s lh eh _ Hh Hlh).
    rewrite (section_str_extend_ne body s lh lb _ Hb Hne).
    rewrite (appended_forms_join s lh args ts)
      by first [exact Hts | eapply Forall_impl; [exact Hargs | now intros v [H _]]].
    cbn [fst]. rewrite Html_str. unfold Element_str. cbn [cls tag_content props].
    rewrite Hceh. cbn [tag_name]. fold added. rewrite !append_assoc. reflexivity.
  - unfold add_tag_to_body. rewrite (add_run body args s lb eb Hb Hlb). cbn [snd].
    rewrite (render_ok _ (page_ok_extend s lb _ Hok)). cbn [fst self with_heap].
    rewrite (section_str_extend_eq body s lb eb _ Hb Hlb).
    rewrite (section_str_extend_ne head s lb lh _ Hh) by congruence.
    rewrite (appended_forms_join s lb args ts)
      by first [exact Hts | eapply Forall_impl; [exact Hargs | now intros v [_ H]]].
    cbn [fst]. rewrite Html_str. unfold Element_str. cbn [cls tag_content props].
    rewrite Hceb. cbn [tag_name]. fold added. rewrite !append_assoc. reflexivity.
Qed.

Lemma render_after_append_witness :
  page_ok page0 /\
  fst (render (snd (add_tag_to_body [FVal (PStr "<p>hi</p>"); FOther (fun _ => Ok "!")] page0))) =
  Ok (doctype_token +:+ "<html " +:+ lang_attr "fr" +:+
      "><head>None</head><body><p>hi</p>!</body></html>").
Proof.
  split; [exact page0_ok |].
  assert (Hargs : Forall (fun tag => apart_from 0 tag /\ apart_from 1 tag)
                    [FVal (PStr "<p>hi</p>"); FOther (fun _ => Ok "!")]).
  { repeat constructor; try discriminate; reflexivity. }
  destruct (render_after_append [FVal (PStr "<p>hi</p>"); FOther (fun _ => Ok "!")] page0 0 1
              (Head "None" []) (Body EmptyString []) ["<p>hi</p>"; "!"]
              page0_ok eq_refl eq_refl eq_refl eq_refl Hargs eq_refl)
    as [_ H].
  rewrite H. reflexivity.
Defined.
